(** * Texture atlas generator: a shallow embedding of
      [resources/textures/atlas_generator.py] and the properties of its
      packing and addressing logic.

    Python integers are modelled as [Z] ([//] and [%] are [Z.div] and
    [Z.modulo], which round towards minus infinity exactly as Python does;
    a zero divisor raises).  The [textures] dictionary is a [gmap] keyed by
    the derived texture name.  Images are a size and a pixel function.
    Printing goes to an event log, exceptions are an error monad.

    Two places of the script compute with binary64 floats:
    - [math.ceil(math.sqrt(num_textures))]: modelled exactly by
      [ceil_sqrt] on [Z]; module [PyFloat] embeds the binary64 computation
      itself and [ceil_of_sqrt_agrees] checks that both coincide on
      every count up to 16384, the capacity of the default configuration
      (8 pixel tiles in a 1024 pixel atlas; [main] uses 16 pixel tiles,
      capacity 4096);
    - the UV quotients [x / actual_atlas_size]: modelled by their exact
      value in [Q]; Python returns the correctly rounded binary64 value of
      that quotient, and rounding keeps a value between 0 and 1 there.
      [uv_float_in_unit] checks this on the floats themselves for every
      grid [main] can produce. *)

From Stdlib Require Import ZArith QArith Lia Ascii.
From Stdlib Require String.
From Stdlib Require Import Uint63 PrimFloat FloatOps SpecFloat.
From stdpp Require Import gmap strings list fin_maps sorting.

Local Open Scope Z_scope.

(** ** Exceptions *)

Inductive exn : Type :=
| ZeroDivisionError
| ValueError
| OSError
| FileNotFoundError.

Inductive result (A : Type) : Type :=
| Ok (a : A)
| Raise (e : exn).
Arguments Ok {A} a.
Arguments Raise {A} e.

(** A computation over a mutable store [S] that may raise. The store
    survives a raise: what was mutated before the exception stays
    mutated, as in Python. *)
Definition M (S A : Type) : Type := S -> result A * S.

Definition ret {S A} (a : A) : M S A := fun s => (Ok a, s).

Definition bind {S A B} (c : M S A) (k : A -> M S B) : M S B :=
  fun s => match c s with
           | (Ok a, s') => k a s'
           | (Raise e, s') => (Raise e, s')
           end.

Definition raise {S A} (e : exn) : M S A := fun s => (Raise e, s).

Definition lift {S A} (r : result A) : M S A := fun s => (r, s).

Definition modify {S} (f : S -> S) : M S unit := fun s => (Ok tt, f s).

(** [try: body except Exception as e: handler e] *)
Definition try_except {S A} (body : M S A) (handler : exn -> M S A) : M S A :=
  fun s => match body s with
           | (Ok a, s') => (Ok a, s')
           | (Raise e, s') => handler e s'
           end.

Declare Scope monad_scope.
Delimit Scope monad_scope with monad.
Notation "x <- c1 ;; c2" := (bind c1 (fun x => c2))
  (at level 100, c1 at next level, right associativity) : monad_scope.
Notation "c1 ;; c2" := (bind c1 (fun _ => c2))
  (at level 100, right associativity) : monad_scope.

(** ** Integer and float primitives of Python *)

(** [a // b] *)
Definition floordiv (a b : Z) : result Z :=
  if b =? 0 then Raise ZeroDivisionError else Ok (a / b).

(** [a % b] *)
Definition pymod (a b : Z) : result Z :=
  if b =? 0 then Raise ZeroDivisionError else Ok (a mod b).

(** [a / b] on integers: the exact quotient. *)
Definition truediv (a b : Z) : result Q :=
  if b =? 0 then Raise ZeroDivisionError
  else Ok (inject_Z a / inject_Z b)%Q.

(** The exact ceiling of the square root of a non-negative integer. *)
Definition ceil_sqrt (n : Z) : Z :=
  let s := Z.sqrt n in
  if s * s =? n then s else s + 1.

(** [math.ceil(math.sqrt(n))]; [math.sqrt] raises on a negative argument. *)
Definition math_ceil_sqrt (n : Z) : result Z :=
  if n <? 0 then Raise ValueError else Ok (ceil_sqrt n).

(** The same computation on binary64 floats, as CPython performs it:
    the integer is converted to a double, [sqrt] is correctly rounded,
    and [math.ceil] returns the exact integer ceiling of the double. *)
Module PyFloat.

Definition float_of_int (n : Z) : float :=
  PrimFloat.of_uint63 (Uint63.of_Z n).

Definition math_sqrt (n : Z) : float := PrimFloat.sqrt (float_of_int n).

Definition math_ceil (f : float) : option Z :=
  match Prim2SF f with
  | S754_zero _ => Some 0
  | S754_finite s m e =>
      let v := if s then Z.neg m else Z.pos m in
      Some (if 0 <=? e then v * 2 ^ e else - ((- v) / 2 ^ (- e)))
  | S754_infinity _ | S754_nan => None
  end.

Definition ceil_of_sqrt (n : Z) : option Z := math_ceil (math_sqrt n).

Definition agree_at (n : Z) : bool :=
  match ceil_of_sqrt n with
  | Some k => k =? ceil_sqrt n
  | None => false
  end.

Fixpoint agree_from (fuel : nat) (n : Z) : bool :=
  match fuel with
  | O => true
  | S fuel' => agree_at n && agree_from fuel' (n + 1)
  end.

(** [a / b] on integers below 2^53: both convert exactly and the
    quotient is rounded once. *)
Definition truediv (a b : Z) : float :=
  PrimFloat.div (float_of_int a) (float_of_int b).

Definition in_unit (f : float) : bool :=
  PrimFloat.leb 0%float f && PrimFloat.leb f 1%float.

(** All quotients [c*T / (s*T)] for [c] up to the given bound. *)
Fixpoint ratios_in_unit (T s : Z) (c : nat) : bool :=
  in_unit (truediv (Z.of_nat c * T) (s * T))
  && match c with
     | O => true
     | S c' => ratios_in_unit T s c'
     end.

Fixpoint sides_in_unit (T : Z) (s : nat) : bool :=
  match s with
  | O => true
  | S s' => ratios_in_unit T (Z.of_nat s) s && sides_in_unit T s'
  end.

End PyFloat.

(** ** Paths: [os.path.basename] and [os.path.splitext] (POSIX flavour) *)

Fixpoint rfind_from (c : ascii) (p : string) (i last : Z) : Z :=
  match p with
  | EmptyString => last
  | String a p' => rfind_from c p' (i + 1) (if Ascii.eqb a c then i else last)
  end.

(** [p.rfind(c)]: the index of the last occurrence of [c], or [-1]. *)
Definition rfind (c : ascii) (p : string) : Z := rfind_from c p 0 (-1).

(** [p[:i]] and [p[i:]] for [0 <= i]. *)
Definition str_take (i : Z) (p : string) : string :=
  String.substring 0 (Z.to_nat i) p.

Definition str_drop (i : Z) (p : string) : string :=
  String.substring (Z.to_nat i) (String.length p - Z.to_nat i) p.

Fixpoint all_dots (p : string) : bool :=
  match p with
  | EmptyString => true
  | String a p' => Ascii.eqb a "."%char && all_dots p'
  end.

Fixpoint all_slashes (p : string) : bool :=
  match p with
  | EmptyString => true
  | String a p' => Ascii.eqb a "/"%char && all_slashes p'
  end.

(** [p.rstrip('/')] *)
Fixpoint rstrip_slashes (p : string) : string :=
  match p with
  | EmptyString => EmptyString
  | String a p' => if all_slashes p then EmptyString else String a (rstrip_slashes p')
  end.

Definition basename (p : string) : string :=
  str_drop (rfind "/"%char p + 1) p.

(** An extension starts at the last dot of the last path component;
    dots that lead the component do not start one. *)
Definition splitext (p : string) : string * string :=
  let sepIndex := rfind "/"%char p in
  let dotIndex := rfind "."%char p in
  if (sepIndex <? dotIndex)
     && negb (all_dots (str_drop (sepIndex + 1) (str_take dotIndex p)))
  then (str_take dotIndex p, str_drop dotIndex p)
  else (p, EmptyString).

(** [os.path.dirname(p)] *)
Definition dirname (p : string) : string :=
  let head := str_take (rfind "/"%char p + 1) p in
  if String.eqb head "" || all_slashes head then head else rstrip_slashes head.

(** [os.path.join(a, b)] *)
Definition path_join (a b : string) : string :=
  if String.prefix "/" b then b
  else if String.eqb a "" || String.eqb (str_drop (Z.of_nat (String.length a) - 1) a) "/"
       then String.append a b
       else String.append a (String.append "/" b).

(** The identifier a texture is recorded under:
    [os.path.splitext(os.path.basename(tex_file))[0]]. *)
Definition tex_name_of (tex_file : string) : string :=
  fst (splitext (basename tex_file)).

(** ** Images *)

Definition rgba : Type := Z * Z * Z * Z.

Definition transparent : rgba := (0, 0, 0, 0).

Record image : Type := {
  im_size : Z * Z;
  getpixel : Z -> Z -> rgba
}.

(** [Image.new('RGBA', size, color)] *)
Definition Image_new (size : Z * Z) (color : rgba) : result image :=
  if (fst size <? 0) || (snd size <? 0) then Raise ValueError
  else Ok {| im_size := size; getpixel := fun _ _ => color |}.

(** [im.resize(size, Image.NEAREST)]: every output pixel samples the
    source pixel under its centre. No statement below depends on which
    source pixel is sampled, only on the size of the result. *)
Definition resize (im : image) (size : Z * Z) : image :=
  let '(w, h) := im_size im in
  let '(w', h') := size in
  {| im_size := size;
     getpixel := fun x y =>
       getpixel im (((2 * x + 1) * w) / (2 * w')) (((2 * y + 1) * h) / (2 * h')) |}.

(** Whether pixel [(px, py)] lies in the box an image of size [size]
    covers once pasted at [box]. *)
Definition in_box (box size : Z * Z) (px py : Z) : bool :=
  (fst box <=? px) && (px <? fst box + fst size)
  && (snd box <=? py) && (py <? snd box + snd size).

(** [dst.paste(src, box)] with a two-coordinate box and no mask: the
    pixels under the pasted image are overwritten, alpha included. *)
Definition paste (dst src : image) (box : Z * Z) : image :=
  {| im_size := im_size dst;
     getpixel := fun px py =>
       if in_box box (im_size src) px py
       then getpixel src (px - fst box) (py - snd box)
       else getpixel dst px py |}.

(** ** Metadata *)

Record PlacementEntry : Type := {
  index : Z;
  position : Z * Z;
  uv_min : Q * Q;
  uv_max : Q * Q
}.

Record Metadata : Type := {
  md_texture_size : Z;
  md_atlas_size : Z;
  md_textures_per_row : Z;
  md_textures : gmap string PlacementEntry
}.

(** ** Console output and written files *)

Inductive event : Type :=
| WarnCapacity (num_textures max_textures : Z)
| WarnTruncated (max_textures : Z)
| InfoTextureSize (texture_size : Z)
| InfoTextureCount (num_textures : Z)
| InfoLayout (textures_per_side : Z)
| InfoAtlasSize (actual_atlas_size : Z)
| InfoUtilization (percent : Q)
| InfoResize (name : string) (from : Z * Z) (texture_size : Z)
| InfoPlaced (idx : Z) (name : string) (pos : Z * Z) (uv0 uv1 : Q * Q)
| ErrLoad (tex_file : string) (e : exn)
| InfoAtlasSaved (path : string)
| InfoMetadataSaved (path : string)
| ErrNoTextures (dir : string)
| InfoFound (n : Z)
| InfoRule
| InfoDone
| InfoCapacity (max_textures : Z)
| InfoUsed (n : Z)
| InfoRemaining (n : Z).

Inductive artifact : Type :=
| Directory
| PngFile (im : image)
| JsonFile (md : Metadata).

Record world : Type := {
  stdout : list event;
  written : list (string * artifact)
}.

Definition print (e : event) : M world unit :=
  modify (fun w => {| stdout := stdout w ++ [e]; written := written w |}).

Definition write (path : string) (a : artifact) : M world unit :=
  modify (fun w => {| stdout := stdout w; written := written w ++ [(path, a)] |}).

(** ** The builder *)

Record TextureAtlasBuilder : Type := {
  texture_size : Z;
  target_atlas_size : Z;
  textures_per_row : Z;
  max_textures : Z
}.

(** [TextureAtlasBuilder.__init__] *)
Definition __init__ (texture_size target_atlas_size : Z) : result TextureAtlasBuilder :=
  match floordiv target_atlas_size texture_size with
  | Raise e => Raise e
  | Ok per_row =>
      Ok {| texture_size := texture_size;
            target_atlas_size := target_atlas_size;
            textures_per_row := per_row;
            max_textures := per_row ^ 2 |}
  end.

(** [l[:m]] *)
Definition slice_to {A} (m : Z) (l : list A) : list A :=
  if m <? 0 then take (Z.to_nat (Z.of_nat (length l) + m)) l
  else take (Z.to_nat m) l.

(** The store the packing loop mutates. *)
Record loop_state : Type := {
  atlas : image;
  textures : gmap string PlacementEntry;
  console : list event
}.

Definition say (e : event) : M loop_state unit :=
  modify (fun st => {| atlas := atlas st; textures := textures st;
                       console := console st ++ [e] |}).

Definition atlas_paste (tex : image) (box : Z * Z) : M loop_state unit :=
  modify (fun st => {| atlas := paste (atlas st) tex box; textures := textures st;
                       console := console st |}).

Definition textures_set (name : string) (e : PlacementEntry) : M loop_state unit :=
  modify (fun st => {| atlas := atlas st; textures := <[name := e]> (textures st);
                       console := console st |}).

(** [for idx, a in enumerate(l, idx): body] *)
Fixpoint for_enumerate {S A} (idx : Z) (l : list A) (body : Z -> A -> M S unit)
  : M S unit :=
  match l with
  | [] => ret tt
  | a :: l' => bind (body idx a) (fun _ => for_enumerate (idx + 1) l' body)
  end.

(** [list.sort()] on file names: the sorted list is unique, so any
    sorting algorithm gives the list Python produces. *)
Fixpoint insert_sorted (s : string) (l : list string) : list string :=
  match l with
  | [] => [s]
  | t :: l' => if String.leb s t then s :: l else t :: insert_sorted s l'
  end.

Definition sort (l : list string) : list string :=
  foldr insert_sorted [] l.

Section Packer.

(** The file system seen through the image codec:
    [Image.open(tex_file).convert('RGBA')] gives the decoded image, or
    raises when the file is missing or is not an image. Writing a file
    is taken to succeed; [os.makedirs] raises on the empty directory name
    that an output path without a directory part gives. *)
Variable decode : string -> option image.

Definition Image_open (tex_file : string) : result image :=
  match decode tex_file with
  | Some im => Ok im
  | None => Raise OSError
  end.

Local Open Scope monad_scope.

(** The body of the [try] of the packing loop. *)
Definition place_texture (self : TextureAtlasBuilder)
    (textures_per_side actual_atlas_size idx : Z) (tex_file : string)
  : M loop_state unit :=
  tex <- lift (Image_open tex_file) ;;
  tex <- (if bool_decide (im_size tex = (texture_size self, texture_size self))
          then ret tex
          else say (InfoResize (basename tex_file) (im_size tex) (texture_size self)) ;;
               ret (resize tex (texture_size self, texture_size self))) ;;
  row <- lift (floordiv idx textures_per_side) ;;
  col <- lift (pymod idx textures_per_side) ;;
  let x := col * texture_size self in
  let y := row * texture_size self in
  atlas_paste tex (x, y) ;;
  uv_min_x <- lift (truediv x actual_atlas_size) ;;
  uv_min_y <- lift (truediv (actual_atlas_size - y - texture_size self) actual_atlas_size) ;;
  uv_max_x <- lift (truediv (x + texture_size self) actual_atlas_size) ;;
  uv_max_y <- lift (truediv (actual_atlas_size - y) actual_atlas_size) ;;
  let tex_name := fst (splitext (basename tex_file)) in
  textures_set tex_name
    {| index := idx; position := (x, y);
       uv_min := (uv_min_x, uv_min_y); uv_max := (uv_max_x, uv_max_y) |} ;;
  if (idx <? 5) || (idx mod 100 =? 0)
  then say (InfoPlaced idx tex_name (x, y) (uv_min_x, uv_min_y) (uv_max_x, uv_max_y))
  else ret tt.

(** One iteration: the [try] with its [except Exception]. *)
Definition paste_texture (self : TextureAtlasBuilder)
    (textures_per_side actual_atlas_size idx : Z) (tex_file : string)
  : M loop_state unit :=
  try_except
    (place_texture self textures_per_side actual_atlas_size idx tex_file)
    (fun e => say (ErrLoad tex_file e)).

(** The packing loop run on a fresh atlas; what it printed joins the
    console output of the run. *)
Definition paste_all (self : TextureAtlasBuilder)
    (textures_per_side actual_atlas_size : Z) (texture_files : list string)
    (atlas0 : image) : M world (image * gmap string PlacementEntry) :=
  fun w =>
    let '(r, st) :=
      for_enumerate 0 texture_files
        (paste_texture self textures_per_side actual_atlas_size)
        {| atlas := atlas0; textures := ∅; console := stdout w |} in
    let w' := {| stdout := console st; written := written w |} in
    match r with
    | Ok _ => (Ok (atlas st, textures st), w')
    | Raise e => (Raise e, w')
    end.

(** [TextureAtlasBuilder.create_atlas] *)
Definition create_atlas (self : TextureAtlasBuilder) (texture_files : list string)
    (output_path : string) (metadata_path : option string) : M world Metadata :=
  let num_textures := Z.of_nat (length texture_files) in
  selected <-
    (if max_textures self <? num_textures
     then print (WarnCapacity num_textures (max_textures self)) ;;
          print (WarnTruncated (max_textures self)) ;;
          ret (slice_to (max_textures self) texture_files, max_textures self)
     else ret (texture_files, num_textures)) ;;
  let '(texture_files, num_textures) := selected in
  textures_per_side <- lift (math_ceil_sqrt num_textures) ;;
  let actual_atlas_size := textures_per_side * texture_size self in
  print (InfoTextureSize (texture_size self)) ;;
  print (InfoTextureCount num_textures) ;;
  print (InfoLayout textures_per_side) ;;
  print (InfoAtlasSize actual_atlas_size) ;;
  utilization <- lift (truediv num_textures (textures_per_side ^ 2)) ;;
  print (InfoUtilization (utilization * 100)%Q) ;;
  atlas0 <- lift (Image_new (actual_atlas_size, actual_atlas_size) transparent) ;;
  pasted <-
    paste_all self textures_per_side actual_atlas_size texture_files atlas0 ;;
  let '(atlas, textures) := pasted in
  let metadata :=
    {| md_texture_size := texture_size self;
       md_atlas_size := actual_atlas_size;
       md_textures_per_row := textures_per_side;
       md_textures := textures |} in
  (if String.eqb (dirname output_path) ""
   then raise FileNotFoundError
   else write (dirname output_path) Directory) ;;
  write output_path (PngFile atlas) ;;
  print (InfoAtlasSaved output_path) ;;
  match metadata_path with
  | Some path =>
      if String.eqb path "" then ret tt
      else write path (JsonFile metadata) ;; print (InfoMetadataSaved path)
  | None => ret tt
  end ;;
  ret metadata.

(** The directory listing behind [glob.glob]. *)
Variable glob : string -> list string.

(** [main]: its result is the exit status handed to [sys.exit]. *)
Definition main : M world Z :=
  let TEXTURE_SIZE := 16 in
  let ATLAS_SIZE := 1024 in
  let INPUT_DIR : string := "resources/textures/raw_blocks" in
  let OUTPUT_ATLAS : string := "resources/textures/blocks/block_atlas.png" in
  let OUTPUT_METADATA : string := "resources/textures/blocks/block_atlas.json" in
  let texture_files :=
    concat (map (fun ext : string => glob (path_join INPUT_DIR ext))
                ["*.png"; "*.jpg"; "*.jpeg"]) in
  match texture_files with
  | [] => print (ErrNoTextures INPUT_DIR) ;; ret 1
  | _ :: _ =>
      let texture_files := sort texture_files in
      print (InfoFound (Z.of_nat (length texture_files))) ;;
      print InfoRule ;;
      builder <- lift (__init__ TEXTURE_SIZE ATLAS_SIZE) ;;
      metadata <- create_atlas builder texture_files OUTPUT_ATLAS (Some OUTPUT_METADATA) ;;
      print InfoRule ;;
      print InfoDone ;;
      print (InfoCapacity (max_textures builder)) ;;
      print (InfoUsed (Z.of_nat (size (md_textures metadata)))) ;;
      print (InfoRemaining (max_textures builder - Z.of_nat (size (md_textures metadata)))) ;;
      ret 0
  end.

End Packer.

(** ** Names for what [create_atlas] computes on the way *)

(** The file list after the capacity check, and its count. *)
Definition processed (self : TextureAtlasBuilder) (texture_files : list string)
  : list string :=
  if max_textures self <? Z.of_nat (length texture_files)
  then slice_to (max_textures self) texture_files
  else texture_files.

Definition processed_count (self : TextureAtlasBuilder) (texture_files : list string)
  : Z :=
  if max_textures self <? Z.of_nat (length texture_files)
  then max_textures self
  else Z.of_nat (length texture_files).

(** The tile that is pasted: the decoded image, resized unless it
    already has the tile size. *)
Definition fit (self : TextureAtlasBuilder) (tex : image) : image :=
  if bool_decide (im_size tex = (texture_size self, texture_size self))
  then tex
  else resize tex (texture_size self, texture_size self).

(** The pixel origin of the cell of placement [idx]. *)
Definition cell_origin (self : TextureAtlasBuilder) (textures_per_side idx : Z)
  : Z * Z :=
  ((idx mod textures_per_side) * texture_size self,
   (idx / textures_per_side) * texture_size self).

(** Whether pixel [(px, py)] lies in the cell of placement [idx]. *)
Definition in_cell (self : TextureAtlasBuilder) (textures_per_side idx px py : Z)
  : bool :=
  in_box (cell_origin self textures_per_side idx)
         (texture_size self, texture_size self) px py.

(** The entry recorded for placement [idx]. *)
Definition entry_of (self : TextureAtlasBuilder)
    (textures_per_side actual_atlas_size idx : Z) : PlacementEntry :=
  let '(x, y) := cell_origin self textures_per_side idx in
  let a := inject_Z actual_atlas_size in
  {| index := idx;
     position := (x, y);
     uv_min := (inject_Z x / a,
                inject_Z (actual_atlas_size - y - texture_size self) / a)%Q;
     uv_max := (inject_Z (x + texture_size self) / a,
                inject_Z (actual_atlas_size - y) / a)%Q |}.

(** The store after the packing loop. *)
Definition run_loop (decode : string -> option image) (self : TextureAtlasBuilder)
    (textures_per_side actual_atlas_size idx : Z) (texture_files : list string)
    (st : loop_state) : loop_state :=
  snd (for_enumerate idx texture_files
         (paste_texture decode self textures_per_side actual_atlas_size) st).

(** The grid and atlas edge chosen for a file list. *)
Definition side_of (self : TextureAtlasBuilder) (texture_files : list string) : Z :=
  ceil_sqrt (processed_count self texture_files).

Definition atlas_size_of (self : TextureAtlasBuilder) (texture_files : list string)
  : Z :=
  side_of self texture_files * texture_size self.

(** What is printed before the loop starts. *)
Definition announced (self : TextureAtlasBuilder) (texture_files : list string)
  : list event :=
  let len := Z.of_nat (length texture_files) in
  (if max_textures self <? len
   then [WarnCapacity len (max_textures self); WarnTruncated (max_textures self)]
   else [])
  ++ [InfoTextureSize (texture_size self);
      InfoTextureCount (processed_count self texture_files);
      InfoLayout (side_of self texture_files);
      InfoAtlasSize (atlas_size_of self texture_files);
      InfoUtilization
        (inject_Z (processed_count self texture_files)
         / inject_Z (side_of self texture_files ^ 2) * 100)%Q].

(** The store after the loop of a run that reaches it. *)
Definition packed (decode : string -> option image) (self : TextureAtlasBuilder)
    (texture_files : list string) (w : world) : loop_state :=
  run_loop decode self (side_of self texture_files) (atlas_size_of self texture_files)
    0 (processed self texture_files)
    {| atlas := {| im_size := (atlas_size_of self texture_files,
                               atlas_size_of self texture_files);
                   getpixel := fun _ _ => transparent |};
       textures := ∅;
       console := stdout w ++ announced self texture_files |}.

(** The metadata file of a run, when a path for it is given. *)
Definition metadata_file (metadata_path : option string) (md : Metadata)
  : list (string * artifact) * list event :=
  match metadata_path with
  | Some path =>
      if String.eqb path "" then ([], [])
      else ([(path, JsonFile md)], [InfoMetadataSaved path])
  | None => ([], [])
  end.

(** Metadata and world at the end of a run that succeeds. *)
Definition final_metadata (decode : string -> option image)
    (self : TextureAtlasBuilder) (texture_files : list string) (w : world)
  : Metadata :=
  {| md_texture_size := texture_size self;
     md_atlas_size := atlas_size_of self texture_files;
     md_textures_per_row := side_of self texture_files;
     md_textures := textures (packed decode self texture_files w) |}.

Definition final_world (decode : string -> option image)
    (self : TextureAtlasBuilder) (texture_files : list string)
    (output_path : string) (metadata_path : option string) (w : world) : world :=
  let st := packed decode self texture_files w in
  let md := final_metadata decode self texture_files w in
  {| stdout := console st ++ [InfoAtlasSaved output_path]
               ++ snd (metadata_file metadata_path md);
     written := written w
                ++ [(dirname output_path, Directory); (output_path, PngFile (atlas st))]
                ++ fst (metadata_file metadata_path md) |}.

(** World [w'] is world [w] after a run that saved [atlas] at [path]. *)
Definition saves (w w' : world) (path : string) (atlas : image) : Prop :=
  exists rest,
    written w' =
    written w ++ [(dirname path, Directory); (path, PngFile atlas)] ++ rest.

(** ** Concrete inputs used in the examples *)

Definition blank (w h : Z) (c : rgba) : image :=
  {| im_size := (w, h); getpixel := fun _ _ => c |}.

Definition w0 : world := {| stdout := []; written := [] |}.

(** A directory [raw/] of 16 pixel tiles, red ones in PNG files and
    green ones in JPEG files; one file is broken. *)
Definition demo_decode (f : string) : option image :=
  if String.eqb f "raw/broken.png" then None
  else if String.prefix "raw/" f
       then Some (blank 16 16 (if String.eqb (snd (splitext f)) ".jpg"
                               then (0, 255, 0, 255) else (255, 0, 0, 255)))
  else None.

(** The builder [main] constructs, and one with room for four tiles. *)
Definition main_builder : TextureAtlasBuilder :=
  {| texture_size := 16; target_atlas_size := 1024;
     textures_per_row := 64; max_textures := 4096 |}.

Definition small_builder : TextureAtlasBuilder :=
  {| texture_size := 16; target_atlas_size := 32;
     textures_per_row := 2; max_textures := 4 |}.

Definition five_files : list string :=
  ["raw/a.png"; "raw/b.png"; "raw/c.png"; "raw/d.png"; "raw/e.png"].

Definition six_files : list string :=
  ["raw/a.png"; "raw/b.png"; "raw/c.png"; "raw/d.png"; "raw/e.png"; "raw/f.png"].

Definition three_files : list string :=
  ["raw/a.png"; "raw/broken.png"; "raw/c.png"].

Definition colliding_files : list string :=
  ["raw/stone.png"; "raw/stone.jpg"].

Definition out_png : string := "out/atlas.png".

Definition out_json : string := "out/atlas.json".

(** A directory listing in which only the PNG pattern matches. *)
Definition png_only (files : list string) (pattern : string) : list string :=
  if String.eqb pattern "resources/textures/raw_blocks/*.png" then files else [].

(** The indices stored in the metadata: pairwise distinct, below [n],
    and covering every index below [n]. *)
Definition indices_distinct (md : Metadata) : Prop :=
  forall name1 name2 e1 e2,
    md_textures md !! name1 = Some e1 -> md_textures md !! name2 = Some e2 ->
    index e1 = index e2 -> name1 = name2.

Definition indices_in_range (md : Metadata) (n : Z) : Prop :=
  forall name e, md_textures md !! name = Some e -> 0 <= index e < n.

Definition indices_cover (md : Metadata) (n : Z) : Prop :=
  forall i, 0 <= i < n ->
    exists name e, md_textures md !! name = Some e /\ index e = i.

(** Whether a character occurs in a string. *)
Fixpoint has_char (c : ascii) (p : string) : bool :=
  match p with
  | EmptyString => false
  | String a p' => Ascii.eqb a c || has_char c p'
  end.

(** A rational in the unit interval. *)
Definition in_unit (q : Q) : Prop := (0 <= q /\ q <= 1)%Q.

(** * Properties *)

(** ** The float computation agrees with the exact ceiling square root *)

Lemma agree_from_sound fuel : forall n m,
  PyFloat.agree_from fuel n = true -> n <= m < n + Z.of_nat fuel -> PyFloat.agree_at m = true.
Proof.
  induction fuel as [|fuel IH]; intros n m Hall Hm; [lia|].
  simpl in Hall. apply andb_true_iff in Hall as [Hn Hrest].
  destruct (Z.eq_dec m n) as [->|Hne]; [exact Hn|].
  apply (IH (n + 1)); [exact Hrest | lia].
Qed.

Lemma agree_all : PyFloat.agree_from (Z.to_nat 16385) 0 = true.
Proof. vm_compute. reflexivity. Qed.

Lemma ceil_of_sqrt_agrees n :
  0 <= n <= 16384 -> PyFloat.ceil_of_sqrt n = Some (ceil_sqrt n).
Proof.
  intros Hn.
  assert (H : PyFloat.agree_at n = true).
  { apply (agree_from_sound (Z.to_nat 16385) 0); [exact agree_all | lia]. }
  unfold PyFloat.agree_at in H. destruct (PyFloat.ceil_of_sqrt n) as [k|]; [|discriminate].
  apply Z.eqb_eq in H. now subst.
Qed.

(** Beyond 2^53 the double no longer holds the count exactly and the
    float result falls below the exact ceiling; such counts cannot
    occur as the length of a list of file names. *)
Example ceil_of_sqrt_huge :
  PyFloat.ceil_of_sqrt (2 ^ 54 + 1) = Some (2 ^ 27) /\ ceil_sqrt (2 ^ 54 + 1) = 2 ^ 27 + 1.
Proof. vm_compute. split; reflexivity. Qed.


(** ** The float UV quotients stay in the unit interval *)

Lemma ratios_in_unit_sound T s c : forall c' : nat,
  PyFloat.ratios_in_unit T s c = true -> (c' <= c)%nat ->
  PyFloat.in_unit (PyFloat.truediv (Z.of_nat c' * T) (s * T)) = true.
Proof.
  induction c as [|c IH]; intros c' Hall Hc'.
  - assert (c' = 0%nat) as -> by lia. simpl in Hall.
    now apply andb_true_iff in Hall as [Hhere _].
  - cbn [PyFloat.ratios_in_unit] in Hall. apply andb_true_iff in Hall as [Hhere Hrest].
    destruct (Nat.eq_dec c' (S c)) as [->|Hne]; [exact Hhere|].
    apply IH; [exact Hrest | lia].
Qed.

Lemma sides_in_unit_sound T smax : forall s c : nat,
  PyFloat.sides_in_unit T smax = true -> (1 <= s <= smax)%nat -> (c <= s)%nat ->
  PyFloat.in_unit (PyFloat.truediv (Z.of_nat c * T) (Z.of_nat s * T)) = true.
Proof.
  induction smax as [|smax IH]; intros s c Hall Hs Hc; [lia|].
  cbn [PyFloat.sides_in_unit] in Hall. apply andb_true_iff in Hall as [Hhere Hrest].
  destruct (Nat.eq_dec s (S smax)) as [->|Hne].
  - now apply (ratios_in_unit_sound T (Z.of_nat (S smax)) (S smax)).
  - apply IH; [exact Hrest | lia | exact Hc].
Qed.

Lemma sides_checked : PyFloat.sides_in_unit 16 64 = true.
Proof. vm_compute. reflexivity. Qed.

(** With the 16 pixel tiles of [main] and a grid of up to 64 cells per
    side (its capacity), every quotient [c*16 / (side*16)], [c <= side],
    is a float between 0 and 1; the four UV values are of this form. *)
Lemma uv_float_in_unit side c :
  1 <= side <= 64 -> 0 <= c <= side ->
  PyFloat.in_unit (PyFloat.truediv (c * 16) (side * 16)) = true.
Proof.
  intros Hs Hc.
  pose proof (sides_in_unit_sound 16 64 (Z.to_nat side) (Z.to_nat c)
                sides_checked ltac:(lia) ltac:(lia)) as H.
  now rewrite !Z2Nat.id in H by lia.
Qed.

(** ** Arithmetic of the grid *)

Lemma ceil_sqrt_bounds n :
  0 <= n ->
  0 <= ceil_sqrt n /\ n <= ceil_sqrt n * ceil_sqrt n
  /\ (0 < n -> (ceil_sqrt n - 1) * (ceil_sqrt n - 1) < n).
Proof.
  intros Hn. unfold ceil_sqrt.
  pose proof (Z.sqrt_spec n Hn) as [Hlo Hhi]. cbv zeta.
  pose proof (Z.sqrt_nonneg n) as Hs.
  destruct (Z.eqb_spec (Z.sqrt n * Z.sqrt n) n) as [Heq|Hne].
  - split; [lia|]. split; [lia|]. intros Hpos. nia.
  - unfold Z.succ in Hhi. split; [lia|]. split; [nia|]. intros _.
    replace (Z.sqrt n + 1 - 1) with (Z.sqrt n) by lia. lia.
Qed.

Lemma ceil_sqrt_least n k :
  0 <= n -> 0 <= k -> n <= k * k -> ceil_sqrt n <= k.
Proof.
  intros Hn Hk Hle.
  destruct (Z.eq_dec n 0) as [->|Hn0]; [vm_compute ceil_sqrt; lia|].
  destruct (ceil_sqrt_bounds n Hn) as (H0 & _ & Hlt).
  specialize (Hlt ltac:(lia)).
  destruct (Z.le_gt_cases (ceil_sqrt n) k) as [|Hgt]; [assumption|].
  exfalso. assert (k <= ceil_sqrt n - 1) by lia. nia.
Qed.

Lemma ceil_sqrt_square k : 0 <= k -> ceil_sqrt (k ^ 2) = k.
Proof.
  intros Hk. unfold ceil_sqrt. replace (k ^ 2) with (k * k) by lia.
  rewrite Z.sqrt_square by assumption. now rewrite Z.eqb_refl.
Qed.

Lemma ceil_sqrt_pos n : 1 <= n -> 1 <= ceil_sqrt n.
Proof.
  intros Hn. destruct (ceil_sqrt_bounds n ltac:(lia)) as (H0 & Hle & _). nia.
Qed.

(** A quotient of integers [0 <= a <= b], [0 < b], lies in [[0, 1]]. *)
Lemma ratio_in_unit a b :
  0 <= a <= b -> 0 < b -> in_unit (inject_Z a / inject_Z b).
Proof.
  intros [Ha Hab] Hb. assert (Hb' : (0 < inject_Z b)%Q).
  { change 0%Q with (inject_Z 0). now rewrite <- Zlt_Qlt. }
  split.
  - apply Qle_shift_div_l; [exact Hb'|]. rewrite Qmult_0_l.
    change 0%Q with (inject_Z 0). now rewrite <- Zle_Qle.
  - apply Qle_shift_div_r; [exact Hb'|]. rewrite Qmult_1_l. now rewrite <- Zle_Qle.
Qed.

Lemma entry_of_index self side a idx : index (entry_of self side a idx) = idx.
Proof. unfold entry_of. now destruct (cell_origin self side idx). Qed.

Lemma entry_of_position self side a idx :
  position (entry_of self side a idx) = cell_origin self side idx.
Proof. unfold entry_of. now destruct (cell_origin self side idx). Qed.

(** ** One iteration of the packing loop *)

Section Loop.

Variable decode : string -> option image.
Variable self : TextureAtlasBuilder.
Variables textures_per_side actual_atlas_size : Z.

Local Abbreviation T := (texture_size self).
Local Abbreviation step := (paste_texture decode self textures_per_side actual_atlas_size).
Local Abbreviation loop := (run_loop decode self textures_per_side actual_atlas_size).
Local Abbreviation origin := (cell_origin self textures_per_side).
Local Abbreviation entry := (entry_of self textures_per_side actual_atlas_size).

Lemma fit_size im : im_size (fit self im) = (T, T).
Proof.
  unfold fit. case_bool_decide as Hsz; [exact Hsz|].
  unfold resize. now destruct (im_size im).
Qed.

(** A texture that does not decode leaves atlas and metadata alone. *)
Lemma step_undecodable idx f st :
  decode f = None ->
  step idx f st =
    (Ok tt, {| atlas := atlas st; textures := textures st;
               console := console st ++ [ErrLoad f OSError] |}).
Proof.
  intros Hd. unfold paste_texture, try_except, place_texture, bind, lift, Image_open.
  now rewrite Hd.
Qed.

(** A texture that decodes is pasted at its cell and recorded under its name. *)
Lemma step_decoded idx f im st :
  textures_per_side <> 0 -> actual_atlas_size <> 0 ->
  decode f = Some im ->
  exists c,
    step idx f st =
      (Ok tt, {| atlas := paste (atlas st) (fit self im) (origin idx);
                 textures := <[tex_name_of f := entry idx]> (textures st);
                 console := c |}).
Proof.
  intros Hs Ha Hd.
  unfold paste_texture, try_except, place_texture, bind, lift, Image_open.
  rewrite Hd. unfold floordiv, pymod, truediv.
  apply Z.eqb_neq in Hs, Ha. rewrite Hs, Ha.
  unfold fit, entry_of, cell_origin, tex_name_of.
  case_bool_decide; simpl;
    destruct ((idx <? 5) || (idx mod 100 =? 0)); simpl; eexists; reflexivity.
Qed.

(** No iteration lets an exception escape. *)
Lemma step_never_raises idx f st : fst (step idx f st) = Ok tt.
Proof.
  unfold paste_texture, try_except.
  destruct (place_texture _ _ _ _ _ _ _) as [[[]|e] st']; reflexivity.
Qed.

Lemma for_enumerate_never_raises files : forall idx st,
  fst (for_enumerate idx files step st) = Ok tt.
Proof.
  induction files as [|f files IH]; intros idx st; [reflexivity|].
  simpl. unfold bind. pose proof (step_never_raises idx f st) as Hs.
  destruct (step idx f st) as [r st']. simpl in Hs. subst r. apply IH.
Qed.

Lemma loop_nil idx st : loop idx [] st = st.
Proof. reflexivity. Qed.

Lemma loop_cons idx f files st :
  loop idx (f :: files) st = loop (idx + 1) files (snd (step idx f st)).
Proof.
  unfold run_loop. simpl. unfold bind.
  pose proof (step_never_raises idx f st) as Hs.
  destruct (step idx f st) as [r st']. simpl in Hs. now subst r.
Qed.

(** What was printed stays printed. *)
Lemma step_console idx f st :
  console st `prefix_of` console (snd (step idx f st)).
Proof.
  destruct (decode f) as [im|] eqn:Hd.
  - unfold paste_texture, try_except, place_texture, bind, lift, Image_open,
      say, atlas_paste, textures_set, modify, ret, floordiv, pymod, truediv.
    rewrite Hd.
    repeat (case_match; simplify_eq; cbn [snd console]);
      rewrite <- ?app_assoc; try apply prefix_app_r; reflexivity.
  - rewrite (step_undecodable idx f st Hd). simpl. now apply prefix_app_r.
Qed.

Lemma loop_console files : forall idx st,
  console st `prefix_of` console (loop idx files st).
Proof.
  induction files as [|f files IH]; intros idx st; [reflexivity|].
  rewrite loop_cons. etrans; [apply step_console | apply IH].
Qed.

(** ** The whole loop *)

Hypothesis side_pos : 0 < textures_per_side.
Hypothesis tile_pos : 0 < T.
Hypothesis atlas_nonzero : actual_atlas_size <> 0.

Lemma in_cell_spec idx px py :
  in_cell self textures_per_side idx px py = true <->
  px / T = idx mod textures_per_side /\ py / T = idx / textures_per_side.
Proof.
  unfold in_cell, in_box, cell_origin. simpl.
  rewrite !andb_true_iff, !Z.leb_le, !Z.ltb_lt. split.
  - intros [[[Hx1 Hx2] Hy1] Hy2]. split; symmetry.
    + apply (Z.div_unique px T _ (px - idx mod textures_per_side * T)); lia.
    + apply (Z.div_unique py T _ (py - idx / textures_per_side * T)); lia.
  - intros [Hx Hy]. rewrite <- Hx, <- Hy.
    pose proof (Z.mul_div_le px T tile_pos).
    pose proof (Z.mul_succ_div_gt px T tile_pos).
    pose proof (Z.mul_div_le py T tile_pos).
    pose proof (Z.mul_succ_div_gt py T tile_pos). lia.
Qed.

(** Cells of different placements share no pixel. *)
Lemma in_cell_unique i j px py :
  in_cell self textures_per_side i px py = true ->
  in_cell self textures_per_side j px py = true -> i = j.
Proof.
  rewrite !in_cell_spec. intros [Hx Hy] [Hx' Hy'].
  rewrite (Z.div_mod i textures_per_side), (Z.div_mod j textures_per_side) by lia.
  congruence.
Qed.

Lemma loop_atlas_size files : forall idx st,
  im_size (atlas (loop idx files st)) = im_size (atlas st).
Proof.
  induction files as [|f files IH]; intros idx st; [reflexivity|].
  rewrite loop_cons, IH.
  destruct (decode f) as [im|] eqn:Hd.
  - destruct (step_decoded idx f im st ltac:(lia) atlas_nonzero Hd) as [c ->].
    reflexivity.
  - now rewrite (step_undecodable idx f st Hd).
Qed.

(** Every recorded entry was there before the loop or is the entry of a
    texture of the list that decodes, under that texture's name. *)
Lemma loop_textures_sound files : forall idx st name e,
  textures (loop idx files st) !! name = Some e ->
  textures st !! name = Some e \/
  exists (k : nat) f im,
    files !! k = Some f /\ decode f = Some im /\ tex_name_of f = name /\
    e = entry (idx + Z.of_nat k).
Proof.
  induction files as [|f files IH]; intros idx st name e Hl; [now left|].
  rewrite loop_cons in Hl. apply IH in Hl as [Hl|(k & f' & im & Hk & Hd & Hn & He)].
  - destruct (decode f) as [im|] eqn:Hd.
    + destruct (step_decoded idx f im st ltac:(lia) atlas_nonzero Hd) as [c Hstep].
      rewrite Hstep in Hl. simpl in Hl.
      destruct (decide (tex_name_of f = name)) as [Heq|Hne].
      * subst name. rewrite lookup_insert_eq in Hl. injection Hl as <-.
        right. exists 0%nat, f, im. repeat split; try assumption.
        now rewrite Z.add_0_r.
      * rewrite lookup_insert_ne in Hl by assumption. now left.
    + rewrite (step_undecodable idx f st Hd) in Hl. now left.
  - right. exists (S k), f', im. repeat split; try assumption.
    subst e. f_equal. lia.
Qed.

(** A name that is recorded stays recorded. *)
Lemma loop_textures_keeps files : forall idx st name,
  is_Some (textures st !! name) -> is_Some (textures (loop idx files st) !! name).
Proof.
  induction files as [|f files IH]; intros idx st name Hin; [exact Hin|].
  rewrite loop_cons. apply IH.
  destruct (decode f) as [im|] eqn:Hd.
  - destruct (step_decoded idx f im st ltac:(lia) atlas_nonzero Hd) as [c ->].
    simpl. rewrite lookup_insert_is_Some.
    destruct (decide (tex_name_of f = name)); auto.
  - now rewrite (step_undecodable idx f st Hd).
Qed.

(** The last decodable texture with a given name owns the entry. *)
Lemma loop_textures_last files : forall idx st (k : nat) f im,
  files !! k = Some f -> decode f = Some im ->
  (forall (k' : nat) f', (k < k')%nat -> files !! k' = Some f' ->
     tex_name_of f' = tex_name_of f -> decode f' = None) ->
  textures (loop idx files st) !! tex_name_of f = Some (entry (idx + Z.of_nat k)).
Proof.
  induction files as [|g files IH]; intros idx st k f im Hk Hd Hlast; [done|].
  rewrite loop_cons. destruct k as [|k].
  - simpl in Hk. injection Hk as ->.
    destruct (step_decoded idx f im st ltac:(lia) atlas_nonzero Hd) as [c Hstep].
    rewrite Hstep. simpl.
    destruct (textures (loop (idx + 1) files
                {| atlas := paste (atlas st) (fit self im) (origin idx);
                   textures := <[tex_name_of f := entry idx]> (textures st);
                   console := c |}) !! tex_name_of f) as [e|] eqn:Hl.
    + apply loop_textures_sound in Hl as [Hl|(k' & f' & im' & Hk' & Hd' & Hn & _)].
      * simpl in Hl. rewrite lookup_insert_eq in Hl. now rewrite Z.add_0_r.
      * rewrite (Hlast (S k') f' ltac:(lia) Hk' Hn) in Hd'. discriminate.
    + pose proof (loop_textures_keeps files (idx + 1)
        {| atlas := paste (atlas st) (fit self im) (origin idx);
           textures := <[tex_name_of f := entry idx]> (textures st);
           console := c |} (tex_name_of f)) as Hkeep.
      simpl in Hkeep. rewrite lookup_insert_eq, Hl in Hkeep.
      destruct Hkeep as [? ?]; [eauto | discriminate].
  - simpl in Hk. replace (idx + Z.of_nat (S k)) with (idx + 1 + Z.of_nat k) by lia.
    eapply IH; [exact Hk | exact Hd |].
    intros k' f' Hlt Hk' Hn. apply (Hlast (S k') f'); [lia | exact Hk' | exact Hn].
Qed.

(** Whoever owns an entry after the loop is the last decodable texture
    of that name. *)
Lemma loop_textures_owner files : forall idx st name e,
  textures (loop idx files st) !! name = Some e ->
  (textures st !! name = Some e /\
   forall (k : nat) f, files !! k = Some f -> tex_name_of f = name -> decode f = None)
  \/
  exists (k : nat) f im,
    files !! k = Some f /\ decode f = Some im /\ tex_name_of f = name /\
    e = entry (idx + Z.of_nat k) /\
    forall (k' : nat) f', (k < k')%nat -> files !! k' = Some f' ->
      tex_name_of f' = name -> decode f' = None.
Proof.
  induction files as [|f files IH]; intros idx st name e Hl.
  { left. split; [exact Hl | intros k f Hk; destruct k; discriminate]. }
  rewrite loop_cons in Hl.
  apply IH in Hl as [[Hl Hnone]|(k & f' & im & Hk & Hd & Hn & He & Hlast)].
  - destruct (decode f) as [im|] eqn:Hd.
    + destruct (step_decoded idx f im st ltac:(lia) atlas_nonzero Hd) as [c Hstep].
      rewrite Hstep in Hl. simpl in Hl.
      destruct (decide (tex_name_of f = name)) as [Heq|Hne].
      * subst name. rewrite lookup_insert_eq in Hl. injection Hl as <-.
        right. exists 0%nat, f, im. rewrite Z.add_0_r.
        repeat split; try assumption; try reflexivity.
        intros [|k'] f' Hlt Hk' Hn'; [lia|]. now apply (Hnone k' f').
      * rewrite lookup_insert_ne in Hl by assumption. left. split; [exact Hl|].
        intros [|k] g Hk Hg; [|now apply (Hnone k g)].
        simpl in Hk. injection Hk as <-. contradiction.
    + rewrite (step_undecodable idx f st Hd) in Hl. simpl in Hl.
      left. split; [exact Hl|].
      intros [|k] g Hk Hg; [|now apply (Hnone k g)].
      simpl in Hk. now injection Hk as <-.
  - right. exists (S k), f', im. repeat split; try assumption.
    + subst e. f_equal. lia.
    + intros [|k'] g Hlt Hk' Hg; [lia|]. apply (Hlast k' g); [lia | exact Hk' | exact Hg].
Qed.

(** A texture that decodes leaves an entry under its name. *)
Lemma loop_textures_recorded files : forall idx st (k : nat) f im,
  files !! k = Some f -> decode f = Some im ->
  is_Some (textures (loop idx files st) !! tex_name_of f).
Proof.
  induction files as [|g files IH]; intros idx st k f im Hk Hd; [done|].
  rewrite loop_cons. destruct k as [|k].
  - simpl in Hk. injection Hk as ->. apply loop_textures_keeps.
    destruct (step_decoded idx f im st ltac:(lia) atlas_nonzero Hd) as [c ->].
    simpl. rewrite lookup_insert_eq. eauto.
  - simpl in Hk. now apply (IH _ _ k f im).
Qed.

(** A pixel outside the cells of the decodable textures keeps its value. *)
Lemma loop_pixel_untouched files : forall idx st px py,
  (forall (k : nat) f im, files !! k = Some f -> decode f = Some im ->
     in_cell self textures_per_side (idx + Z.of_nat k) px py = false) ->
  getpixel (atlas (loop idx files st)) px py = getpixel (atlas st) px py.
Proof.
  induction files as [|f files IH]; intros idx st px py Hout; [reflexivity|].
  rewrite loop_cons, IH.
  - destruct (decode f) as [im|] eqn:Hd.
    + destruct (step_decoded idx f im st ltac:(lia) atlas_nonzero Hd) as [c ->].
      simpl. rewrite fit_size.
      specialize (Hout 0%nat f im eq_refl Hd). rewrite Z.add_0_r in Hout.
      unfold in_cell in Hout. now rewrite Hout.
    + now rewrite (step_undecodable idx f st Hd).
  - intros k g im Hk Hd.
    replace (idx + 1 + Z.of_nat k) with (idx + Z.of_nat (S k)) by lia.
    now apply (Hout (S k) g im).
Qed.

(** A pixel of the cell of a decodable texture shows that texture. *)
Lemma loop_pixel_pasted files : forall idx st (k : nat) f im px py,
  files !! k = Some f -> decode f = Some im ->
  in_cell self textures_per_side (idx + Z.of_nat k) px py = true ->
  getpixel (atlas (loop idx files st)) px py =
  getpixel (fit self im) (px - fst (origin (idx + Z.of_nat k)))
                         (py - snd (origin (idx + Z.of_nat k))).
Proof.
  induction files as [|g files IH]; intros idx st k f im px py Hk Hd Hin; [done|].
  rewrite loop_cons. destruct k as [|k].
  - simpl in Hk. injection Hk as ->. rewrite Z.add_0_r in *.
    rewrite loop_pixel_untouched.
    + destruct (step_decoded idx f im st ltac:(lia) atlas_nonzero Hd) as [c ->].
      simpl. rewrite fit_size. unfold in_cell in Hin. now rewrite Hin.
    + intros k' f' im' _ _.
      destruct (in_cell self textures_per_side (idx + 1 + Z.of_nat k') px py) eqn:Hin';
        [|reflexivity].
      pose proof (in_cell_unique _ _ _ _ Hin Hin'). lia.
  - simpl in Hk.
    replace (idx + Z.of_nat (S k)) with (idx + 1 + Z.of_nat k) in * by lia.
    now apply (IH _ _ k f im).
Qed.

End Loop.

(** ** A whole run *)

Section Run.

Variable decode : string -> option image.

Lemma processed_count_length self files :
  0 <= processed_count self files ->
  Z.of_nat (length (processed self files)) = processed_count self files.
Proof.
  unfold processed, processed_count, slice_to.
  destruct (Z.ltb_spec (max_textures self) (Z.of_nat (length files))) as [Hlt|Hge];
    [|reflexivity].
  intros Hmax. destruct (Z.ltb_spec (max_textures self) 0); [lia|].
  rewrite length_take. lia.
Qed.

(** With at least one texture to process, a tile size that is not
    negative and an output path with a directory part, [create_atlas]
    returns, and this is what it returns. *)
Lemma create_atlas_run self files output_path metadata_path w :
  dirname output_path <> "" ->
  0 <= texture_size self ->
  1 <= processed_count self files ->
  create_atlas decode self files output_path metadata_path w =
    (Ok (final_metadata decode self files w),
     final_world decode self files output_path metadata_path w).
Proof.
  intros Hout HT Hn. apply String.eqb_neq in Hout.
  pose proof (ceil_sqrt_pos _ Hn) as Hside.
  assert (Hneg : (processed_count self files <? 0) = false) by (apply Z.ltb_ge; lia).
  assert (Hsq : (ceil_sqrt (processed_count self files) ^ 2 =? 0) = false)
    by (apply Z.eqb_neq; nia).
  assert (Hsz : (ceil_sqrt (processed_count self files) * texture_size self <? 0) = false)
    by (apply Z.ltb_ge; nia).
  unfold final_world, final_metadata, packed, announced, metadata_file.
  unfold atlas_size_of, side_of, run_loop.
  unfold create_atlas, paste_all, bind, print, write, modify, ret, lift,
    math_ceil_sqrt, truediv, Image_new. rewrite Hout.
  unfold processed, processed_count in *.
  destruct (max_textures self <? Z.of_nat (length files)) eqn:Hcap; cbn [fst snd stdout written];
    rewrite Hneg, Hsq; cbn [fst snd stdout written]; rewrite Hsz, orb_diag.
  all: rewrite <- !app_assoc; cbn [app].
  all: match goal with
       | |- context [for_enumerate 0 ?fs (paste_texture ?d ?b ?s ?a) ?st] =>
           pose proof (for_enumerate_never_raises d b s a fs 0 st) as Hok;
           destruct (for_enumerate 0 fs (paste_texture d b s a) st) as [r st'];
           cbn [fst] in Hok; subst r; cbn [snd]
       end.
  all: destruct metadata_path as [path|]; [destruct (String.eqb path "")|];
       cbn [fst snd stdout written app]; rewrite <- ?app_assoc; reflexivity.
Qed.

Lemma final_world_saves self files output_path metadata_path w :
  saves w (final_world decode self files output_path metadata_path w) output_path
        (atlas (packed decode self files w)).
Proof. unfold saves, final_world. simpl. eexists. reflexivity. Qed.

(** The grid holds every processed texture. *)
Lemma side_of_bounds self files :
  1 <= processed_count self files ->
  1 <= side_of self files /\
  processed_count self files <= side_of self files ^ 2 /\
  (side_of self files - 1) ^ 2 < processed_count self files.
Proof.
  intros Hn. unfold side_of.
  destruct (ceil_sqrt_bounds (processed_count self files) ltac:(lia)) as (_ & Hle & Hlt).
  pose proof (ceil_sqrt_pos _ Hn). specialize (Hlt ltac:(lia)).
  repeat split; [assumption | nia | nia].
Qed.

(** A list position is a placement index below the count. *)
Lemma processed_lookup_lt self files (k : nat) f :
  1 <= processed_count self files ->
  processed self files !! k = Some f ->
  0 <= Z.of_nat k < processed_count self files.
Proof.
  intros Hn Hk. apply lookup_lt_Some in Hk.
  rewrite <- processed_count_length by lia. lia.
Qed.

(** The cell of a placement below the count lies inside the atlas. *)
Lemma cell_in_atlas self files idx :
  0 < texture_size self ->
  1 <= processed_count self files ->
  0 <= idx < processed_count self files ->
  let '(x, y) := cell_origin self (side_of self files) idx in
  0 <= x /\ 0 <= y /\
  x + texture_size self <= atlas_size_of self files /\
  y + texture_size self <= atlas_size_of self files.
Proof.
  intros HT Hn Hidx. destruct (side_of_bounds self files Hn) as (Hs & Hle & _).
  unfold cell_origin, atlas_size_of.
  pose proof (Z.mod_pos_bound idx (side_of self files) ltac:(lia)) as Hcol.
  assert (Hrow : 0 <= idx / side_of self files < side_of self files).
  { split; [apply Z.div_pos; lia|]. apply Z.div_lt_upper_bound; nia. }
  repeat split; nia.
Qed.

Lemma atlas_size_of_pos self files :
  0 < texture_size self -> 1 <= processed_count self files ->
  0 < atlas_size_of self files.
Proof.
  intros HT Hn. destruct (side_of_bounds self files Hn) as (Hs & _).
  unfold atlas_size_of. nia.
Qed.

(** Every entry of the metadata is the entry of a processed texture that
    decodes, and of the last such texture of its name. *)
Lemma packed_entry self files w name e :
  0 < texture_size self -> 1 <= processed_count self files ->
  textures (packed decode self files w) !! name = Some e ->
  exists (k : nat) f im,
    processed self files !! k = Some f /\ decode f = Some im /\
    tex_name_of f = name /\
    e = entry_of self (side_of self files) (atlas_size_of self files) (Z.of_nat k) /\
    forall (k' : nat) f', (k < k')%nat -> processed self files !! k' = Some f' ->
      tex_name_of f' = name -> decode f' = None.
Proof.
  intros HT Hn Hl. destruct (side_of_bounds self files Hn) as (Hs & _).
  pose proof (atlas_size_of_pos self files HT Hn) as Ha.
  unfold packed in Hl.
  destruct (loop_textures_owner decode self (side_of self files) (atlas_size_of self files) ltac:(lia) ltac:(lia) _ _ _ _ _ Hl)
    as [[Hin _]|Hown].
  - simpl in Hin. now rewrite lookup_empty in Hin.
  - destruct Hown as (k & f & im & Hk & Hd & Hname & He & Hlast).
    exists k, f, im. rewrite Z.add_0_l in He. auto.
Qed.

(** The last decodable texture of a name has its entry in the metadata. *)
Lemma packed_last self files w (k : nat) f im :
  0 < texture_size self -> 1 <= processed_count self files ->
  processed self files !! k = Some f -> decode f = Some im ->
  (forall (k' : nat) f', (k < k')%nat -> processed self files !! k' = Some f' ->
     tex_name_of f' = tex_name_of f -> decode f' = None) ->
  textures (packed decode self files w) !! tex_name_of f =
  Some (entry_of self (side_of self files) (atlas_size_of self files) (Z.of_nat k)).
Proof.
  intros HT Hn Hk Hd Hlast. destruct (side_of_bounds self files Hn) as (Hs & _).
  pose proof (atlas_size_of_pos self files HT Hn) as Ha.
  unfold packed.
  rewrite (loop_textures_last decode self (side_of self files) (atlas_size_of self files) ltac:(lia) ltac:(lia) _ 0 _ k f im Hk Hd Hlast).
  reflexivity.
Qed.

(** A processed texture that decodes leaves an entry under its name. *)
Lemma packed_recorded self files w (k : nat) f im :
  0 < texture_size self -> 1 <= processed_count self files ->
  processed self files !! k = Some f -> decode f = Some im ->
  is_Some (textures (packed decode self files w) !! tex_name_of f).
Proof.
  intros HT Hn Hk Hd. destruct (side_of_bounds self files Hn) as (Hs & _).
  pose proof (atlas_size_of_pos self files HT Hn) as Ha.
  unfold packed.
  apply (loop_textures_recorded decode self (side_of self files)
           (atlas_size_of self files) ltac:(lia) ltac:(lia) _ _ _ k f im Hk Hd).
Qed.

(** What was printed before the loop is part of the output of the run. *)
Lemma final_world_announced self files output_path metadata_path w ev :
  ev ∈ announced self files ->
  ev ∈ stdout (final_world decode self files output_path metadata_path w).
Proof.
  intros Hev. unfold final_world. cbn [stdout].
  apply elem_of_app. left.
  pose proof (loop_console decode self (side_of self files) (atlas_size_of self files)
                (processed self files) 0
                {| atlas := {| im_size := (atlas_size_of self files,
                                           atlas_size_of self files);
                               getpixel := fun _ _ => transparent |};
                   textures := ∅;
                   console := stdout w ++ announced self files |}) as [rest Hrest].
  unfold packed. rewrite Hrest. cbn [console].
  apply elem_of_app. left. apply elem_of_app. now right.
Qed.

(** The atlas keeps the size it was created with. *)
Lemma packed_atlas_size self files w :
  0 < texture_size self -> 1 <= processed_count self files ->
  im_size (atlas (packed decode self files w)) =
  (atlas_size_of self files, atlas_size_of self files).
Proof.
  intros HT Hn. destruct (side_of_bounds self files Hn) as (Hs & _).
  pose proof (atlas_size_of_pos self files HT Hn) as Ha.
  unfold packed. now rewrite loop_atlas_size by lia.
Qed.

(** The cell of a decodable texture shows that texture. *)
Lemma packed_pixel self files w (k : nat) f im dx dy :
  0 < texture_size self -> 1 <= processed_count self files ->
  processed self files !! k = Some f -> decode f = Some im ->
  0 <= dx < texture_size self -> 0 <= dy < texture_size self ->
  getpixel (atlas (packed decode self files w))
    (Z.of_nat k mod side_of self files * texture_size self + dx)
    (Z.of_nat k / side_of self files * texture_size self + dy)
  = getpixel (fit self im) dx dy.
Proof.
  intros HT Hn Hk Hd Hdx Hdy. destruct (side_of_bounds self files Hn) as (Hs & _).
  pose proof (atlas_size_of_pos self files HT Hn) as Ha.
  unfold packed.
  rewrite (loop_pixel_pasted decode self (side_of self files) (atlas_size_of self files) ltac:(lia) HT ltac:(lia) _ 0 _ k f im); 
    try assumption.
  - unfold cell_origin. cbn [fst snd]. rewrite Z.add_0_l. f_equal; lia.
  - rewrite Z.add_0_l. unfold in_cell, in_box, cell_origin. cbn [fst snd].
    rewrite !andb_true_iff, !Z.leb_le, !Z.ltb_lt. lia.
Qed.

(** A cell whose texture does not decode stays transparent. *)
Lemma packed_transparent self files w (k : nat) f dx dy :
  0 < texture_size self -> 1 <= processed_count self files ->
  processed self files !! k = Some f -> decode f = None ->
  0 <= dx < texture_size self -> 0 <= dy < texture_size self ->
  getpixel (atlas (packed decode self files w))
    (Z.of_nat k mod side_of self files * texture_size self + dx)
    (Z.of_nat k / side_of self files * texture_size self + dy)
  = transparent.
Proof.
  intros HT Hn Hk Hd Hdx Hdy. destruct (side_of_bounds self files Hn) as (Hs & _).
  pose proof (atlas_size_of_pos self files HT Hn) as Ha.
  unfold packed. rewrite (loop_pixel_untouched decode self (side_of self files) (atlas_size_of self files) ltac:(lia) ltac:(lia));
    [reflexivity|].
  intros k' f' im' Hk' Hd'. rewrite Z.add_0_l.
  destruct (in_cell self (side_of self files) (Z.of_nat k') _ _) eqn:Hin; [|reflexivity].
  assert (Hmine : in_cell self (side_of self files) (Z.of_nat k)
            (Z.of_nat k mod side_of self files * texture_size self + dx)
            (Z.of_nat k / side_of self files * texture_size self + dy) = true).
  { unfold in_cell, in_box, cell_origin. cbn [fst snd].
    rewrite !andb_true_iff, !Z.leb_le, !Z.ltb_lt. lia. }
  pose proof (in_cell_unique self (side_of self files) ltac:(lia) HT _ _ _ _ Hin Hmine) as Heq.
  apply Nat2Z.inj in Heq. subst k'. congruence.
Qed.

End Run.

(** * The claims *)

Section Claims.

Variable decode : string -> option image.

(** C1. For every count [n >= 1] of processed textures (the count after
    the capacity check), [create_atlas] returns and saves an atlas; the
    grid side it chooses is the ceiling of the square root of [n], that
    is the least [k >= 0] with [n <= k^2], so [(side - 1)^2 < n <= side^2];
    the atlas measures [side * T] pixels on each side. *)
Theorem C1_grid_is_least_square self files output_path metadata_path w :
  dirname output_path <> "" ->
  0 < texture_size self ->
  1 <= processed_count self files ->
  exists md atlas w',
    create_atlas decode self files output_path metadata_path w = (Ok md, w') /\
    saves w w' output_path atlas /\
    let n := processed_count self files in
    let side := md_textures_per_row md in
    side = ceil_sqrt n /\
    (0 <= side /\ n <= side ^ 2 /\ forall k, 0 <= k -> n <= k ^ 2 -> side <= k) /\
    (side - 1) ^ 2 < n /\
    md_atlas_size md = side * texture_size self /\
    im_size atlas = (side * texture_size self, side * texture_size self).
Proof.
  intros Hout HT Hn.
  exists (final_metadata decode self files w), (atlas (packed decode self files w)),
         (final_world decode self files output_path metadata_path w).
  split; [apply create_atlas_run; [exact Hout | lia | lia]|].
  split; [apply final_world_saves|].
  destruct (side_of_bounds self files Hn) as (Hs & Hle & Hlt).
  cbn [final_metadata md_textures_per_row md_atlas_size]. fold (side_of self files).
  split; [reflexivity|]. split.
  - split; [lia|]. split; [exact Hle|].
    intros k Hk Hnk. apply ceil_sqrt_least; lia.
  - split; [exact Hlt|]. split; [reflexivity|].
    now rewrite packed_atlas_size.
Qed.

(** C2. In a run over [n >= 1] processed textures every texture at
    placement index [k < n] gets row [k / side] and column [k mod side]
    (integer division) and is pasted with its pixel origin at
    [(col * T, row * T)]; the entry recorded for it carries that index
    and that position. *)
Theorem C2_cell_of_index self files output_path metadata_path w :
  dirname output_path <> "" ->
  0 < texture_size self ->
  1 <= processed_count self files ->
  exists md atlas w',
    create_atlas decode self files output_path metadata_path w = (Ok md, w') /\
    saves w w' output_path atlas /\
    let n := processed_count self files in
    let side := md_textures_per_row md in
    let T := texture_size self in
    side = ceil_sqrt n /\
    (forall name e, md_textures md !! name = Some e ->
       0 <= index e < n /\
       position e = (index e mod side * T, index e / side * T)) /\
    (forall (k : nat) f im,
       processed self files !! k = Some f -> decode f = Some im ->
       let row := Z.of_nat k / side in
       let col := Z.of_nat k mod side in
       (forall dx dy, 0 <= dx < T -> 0 <= dy < T ->
          getpixel atlas (col * T + dx) (row * T + dy) = getpixel (fit self im) dx dy) /\
       ((forall (k' : nat) f', (k < k')%nat -> processed self files !! k' = Some f' ->
           tex_name_of f' = tex_name_of f -> decode f' = None) ->
        exists e, md_textures md !! tex_name_of f = Some e /\
                  index e = Z.of_nat k /\ position e = (col * T, row * T))).
Proof.
  intros Hout HT Hn.
  exists (final_metadata decode self files w), (atlas (packed decode self files w)),
         (final_world decode self files output_path metadata_path w).
  split; [apply create_atlas_run; [exact Hout | lia | lia]|].
  split; [apply final_world_saves|].
  cbn [final_metadata md_textures_per_row md_textures]. fold (side_of self files).
  split; [reflexivity|]. split.
  - intros name e He.
    destruct (packed_entry decode self files w name e HT Hn He)
      as (k & f & im & Hk & _ & _ & -> & _).
    split; [exact (processed_lookup_lt self files k f Hn Hk) | reflexivity].
  - intros k f im Hk Hd. split.
    + intros dx dy Hdx Hdy. now apply (packed_pixel decode self files w k f im).
    + intros Hlast. eexists. split; [now apply (packed_last decode self files w k f im)|].
      split; reflexivity.
Qed.

(** C3. Every recorded placement with pixel origin [(x, y)] carries the
    UV rectangle [u_min = x / A], [u_max = (x + T) / A],
    [v_min = (A - y - T) / A], [v_max = (A - y) / A] for the atlas edge
    [A] (the vertical axis is flipped), and the four values lie in
    [[0, 1]]. *)
Theorem C3_uv_rectangle self files output_path metadata_path w :
  dirname output_path <> "" ->
  0 < texture_size self ->
  1 <= processed_count self files ->
  exists md w',
    create_atlas decode self files output_path metadata_path w = (Ok md, w') /\
    forall name e, md_textures md !! name = Some e ->
      let x := fst (position e) in
      let y := snd (position e) in
      let A := md_atlas_size md in
      let T := md_texture_size md in
      uv_min e = (inject_Z x / inject_Z A, inject_Z (A - y - T) / inject_Z A)%Q /\
      uv_max e = (inject_Z (x + T) / inject_Z A, inject_Z (A - y) / inject_Z A)%Q /\
      in_unit (fst (uv_min e)) /\ in_unit (snd (uv_min e)) /\
      in_unit (fst (uv_max e)) /\ in_unit (snd (uv_max e)).
Proof.
  intros Hout HT Hn.
  exists (final_metadata decode self files w),
         (final_world decode self files output_path metadata_path w).
  split; [apply create_atlas_run; [exact Hout | lia | lia]|].
  cbn [final_metadata md_textures md_atlas_size md_texture_size].
  intros name e He.
  destruct (packed_entry decode self files w name e HT Hn He)
    as (k & f & im & Hk & _ & _ & -> & _).
  pose proof (processed_lookup_lt self files k f Hn Hk) as Hlt.
  pose proof (cell_in_atlas self files (Z.of_nat k) HT Hn Hlt) as Hcell.
  pose proof (atlas_size_of_pos self files HT Hn) as HA.
  unfold entry_of. destruct (cell_origin self (side_of self files) (Z.of_nat k)) as [x y].
  cbn [position uv_min uv_max fst snd]. destruct Hcell as (Hx & Hy & Hx' & Hy').
  repeat split; try reflexivity; apply ratio_in_unit; lia.
Qed.

(** C4, at a capacity of zero. A builder for 16 pixel tiles in an
    8 pixel atlas has capacity [floor(8/16)^2 = 0]. Given one file,
    [create_atlas] reports the truncation, truncates to no file at all
    and then raises [ZeroDivisionError] where it prints the utilization;
    nothing is written. *)
Theorem C4_zero_capacity_raises :
  exists self,
    __init__ 16 8 = Ok self /\ max_textures self = (8 / 16) ^ 2 /\
    create_atlas decode self ["raw/a.png"] out_png None w0 =
      (Raise ZeroDivisionError,
       {| stdout := [WarnCapacity 1 0; WarnTruncated 0; InfoTextureSize 16;
                     InfoTextureCount 0; InfoLayout 0; InfoAtlasSize 0];
          written := [] |}).
Proof. eexists. split; [reflexivity|]. split; reflexivity. Qed.


(** C5. In a run over [n >= 1] processed textures the atlas is [A] by
    [A] pixels, and every placement, recorded or pasted, has its pixel
    origin [(x, y)] with [0 <= x], [0 <= y], [x + T <= A] and
    [y + T <= A]: no cell reaches past the atlas. *)
Theorem C5_cells_inside_atlas self files output_path metadata_path w :
  dirname output_path <> "" ->
  0 < texture_size self ->
  1 <= processed_count self files ->
  exists md atlas w',
    create_atlas decode self files output_path metadata_path w = (Ok md, w') /\
    saves w w' output_path atlas /\
    let n := processed_count self files in
    let side := md_textures_per_row md in
    let A := md_atlas_size md in
    let T := texture_size self in
    im_size atlas = (A, A) /\
    (forall name e, md_textures md !! name = Some e ->
       0 <= fst (position e) /\ 0 <= snd (position e) /\
       fst (position e) + T <= A /\ snd (position e) + T <= A) /\
    (forall idx, 0 <= idx < n ->
       0 <= idx mod side * T /\ 0 <= idx / side * T /\
       idx mod side * T + T <= A /\ idx / side * T + T <= A).
Proof.
  intros Hout HT Hn.
  exists (final_metadata decode self files w), (atlas (packed decode self files w)),
         (final_world decode self files output_path metadata_path w).
  split; [apply create_atlas_run; [exact Hout | lia | lia]|].
  split; [apply final_world_saves|].
  cbn [final_metadata md_textures_per_row md_textures md_atlas_size].
  split; [now apply packed_atlas_size|]. split.
  - intros name e He.
    destruct (packed_entry decode self files w name e HT Hn He)
      as (k & f & im & Hk & _ & _ & -> & _).
    pose proof (processed_lookup_lt self files k f Hn Hk) as Hlt.
    pose proof (cell_in_atlas self files (Z.of_nat k) HT Hn Hlt) as Hcell.
    unfold entry_of. destruct (cell_origin self (side_of self files) (Z.of_nat k)).
    exact Hcell.
  - intros idx Hidx. exact (cell_in_atlas self files idx HT Hn Hidx).
Qed.

(** C6. When the image at placement [i] does not decode, the run still
    returns: no entry carries index [i], the cell of [i] is transparent,
    and every texture that decodes is pasted in the cell of its own
    index and, being the last of its name, recorded with that index. *)
Theorem C6_undecodable_is_skipped self files output_path metadata_path w (i : nat) f :
  dirname output_path <> "" ->
  0 < texture_size self ->
  1 <= processed_count self files ->
  processed self files !! i = Some f ->
  decode f = None ->
  exists md atlas w',
    create_atlas decode self files output_path metadata_path w = (Ok md, w') /\
    saves w w' output_path atlas /\
    let side := md_textures_per_row md in
    let T := texture_size self in
    (forall name e, md_textures md !! name = Some e -> index e <> Z.of_nat i) /\
    (forall dx dy, 0 <= dx < T -> 0 <= dy < T ->
       getpixel atlas (Z.of_nat i mod side * T + dx) (Z.of_nat i / side * T + dy)
       = transparent) /\
    (forall (j : nat) g im,
       processed self files !! j = Some g -> decode g = Some im ->
       (forall dx dy, 0 <= dx < T -> 0 <= dy < T ->
          getpixel atlas (Z.of_nat j mod side * T + dx) (Z.of_nat j / side * T + dy)
          = getpixel (fit self im) dx dy) /\
       ((forall (k' : nat) f', (j < k')%nat -> processed self files !! k' = Some f' ->
           tex_name_of f' = tex_name_of g -> decode f' = None) ->
        exists e, md_textures md !! tex_name_of g = Some e /\ index e = Z.of_nat j)).
Proof.
  intros Hout HT Hn Hi Hd.
  exists (final_metadata decode self files w), (atlas (packed decode self files w)),
         (final_world decode self files output_path metadata_path w).
  split; [apply create_atlas_run; [exact Hout | lia | lia]|].
  split; [apply final_world_saves|].
  cbn [final_metadata md_textures_per_row md_textures].
  split; [|split].
  - intros name e He Hidx.
    destruct (packed_entry decode self files w name e HT Hn He)
      as (k & g & im & Hk & Hdg & _ & -> & _).
    cbn [entry_of index] in Hidx. unfold entry_of in Hidx.
    destruct (cell_origin self (side_of self files) (Z.of_nat k)). cbn [index] in Hidx.
    apply Nat2Z.inj in Hidx. subst k. congruence.
  - intros dx dy Hdx Hdy. now apply (packed_transparent decode self files w i f).
  - intros j g im Hj Hdg. split.
    + intros dx dy Hdx Hdy. now apply (packed_pixel decode self files w j g im).
    + intros Hlast. eexists.
      split; [now apply (packed_last decode self files w j g im)|].
      unfold entry_of. now destruct (cell_origin self (side_of self files) (Z.of_nat j)).
Qed.

(** C7, amended. In a run over [n >= 1] processed textures none of
    which fails to decode, the indices stored in the metadata are
    pairwise distinct and lie in [[0, n)]; when the names derived from
    the processed files are pairwise distinct they cover every index
    below [n]. *)
Theorem C7_indices self files output_path metadata_path w :
  dirname output_path <> "" ->
  0 < texture_size self ->
  1 <= processed_count self files ->
  (forall f, f ∈ processed self files -> decode f <> None) ->
  exists md w',
    create_atlas decode self files output_path metadata_path w = (Ok md, w') /\
    indices_distinct md /\
    indices_in_range md (processed_count self files) /\
    (NoDup (tex_name_of <$> processed self files) ->
     indices_cover md (processed_count self files)).
Proof.
  intros Hout HT Hn Hall.
  exists (final_metadata decode self files w),
         (final_world decode self files output_path metadata_path w).
  split; [apply create_atlas_run; [exact Hout | lia | lia]|].
  assert (Hindex : forall k, index (entry_of self (side_of self files)
                      (atlas_size_of self files) k) = k).
  { intros k. unfold entry_of. now destruct (cell_origin self (side_of self files) k). }
  unfold indices_distinct, indices_in_range, indices_cover.
  cbn [final_metadata md_textures]. split; [|split].
  - intros name1 name2 e1 e2 H1 H2 Heq.
    destruct (packed_entry decode self files w name1 e1 HT Hn H1)
      as (k1 & f1 & im1 & Hk1 & _ & Hn1 & -> & _).
    destruct (packed_entry decode self files w name2 e2 HT Hn H2)
      as (k2 & f2 & im2 & Hk2 & _ & Hn2 & -> & _).
    rewrite !Hindex in Heq. apply Nat2Z.inj in Heq. subst k2. congruence.
  - intros name e He.
    destruct (packed_entry decode self files w name e HT Hn He)
      as (k & f & im & Hk & _ & _ & -> & _).
    rewrite Hindex. exact (processed_lookup_lt self files k f Hn Hk).
  - intros Hnodup i Hi.
    destruct (lookup_lt_is_Some_2 (processed self files) (Z.to_nat i)) as [f Hf].
    { apply Nat2Z.inj_lt. rewrite processed_count_length by lia. lia. }
    destruct (decode f) as [im|] eqn:Hd;
      [|exfalso; apply (Hall f); [eapply list_elem_of_lookup_2; exact Hf | exact Hd]].
    exists (tex_name_of f). eexists. split.
    + apply (packed_last decode self files w (Z.to_nat i) f im HT Hn Hf Hd).
      intros k' f' Hlt Hk' Hname. exfalso.
      assert (k' = Z.to_nat i); [|lia].
      apply (NoDup_lookup _ _ _ (tex_name_of f) Hnodup);
        rewrite list_lookup_fmap; [rewrite Hk' | rewrite Hf]; simpl; congruence.
    + rewrite Hindex. lia.
Qed.

(** C8. When two processed files [f] at index [i] and [g] at a later
    index [j] decode and yield the same name, the run returns as usual:
    the entry of [f] is gone (no entry carries index [i]), the entry
    under the shared name belongs to an index from [j] on, to [j] itself
    when [g] is the last file of that name that decodes, and both
    textures are pasted in their own cells. *)
Theorem C8_collision_overwrites self files output_path metadata_path w
    (i j : nat) f g imf img :
  dirname output_path <> "" ->
  0 < texture_size self ->
  1 <= processed_count self files ->
  (i < j)%nat ->
  processed self files !! i = Some f -> processed self files !! j = Some g ->
  tex_name_of f = tex_name_of g ->
  decode f = Some imf -> decode g = Some img ->
  exists md atlas w',
    create_atlas decode self files output_path metadata_path w = (Ok md, w') /\
    saves w w' output_path atlas /\
    let side := md_textures_per_row md in
    let T := texture_size self in
    (exists e, md_textures md !! tex_name_of f = Some e /\
               Z.of_nat j <= index e /\
               ((forall (k' : nat) f', (j < k')%nat ->
                   processed self files !! k' = Some f' ->
                   tex_name_of f' = tex_name_of g -> decode f' = None) ->
                index e = Z.of_nat j)) /\
    (forall name e, md_textures md !! name = Some e -> index e <> Z.of_nat i) /\
    (forall dx dy, 0 <= dx < T -> 0 <= dy < T ->
       getpixel atlas (Z.of_nat i mod side * T + dx) (Z.of_nat i / side * T + dy)
       = getpixel (fit self imf) dx dy) /\
    (forall dx dy, 0 <= dx < T -> 0 <= dy < T ->
       getpixel atlas (Z.of_nat j mod side * T + dx) (Z.of_nat j / side * T + dy)
       = getpixel (fit self img) dx dy).
Proof.
  intros Hout HT Hn Hij Hi Hj Hname Hdf Hdg.
  exists (final_metadata decode self files w), (atlas (packed decode self files w)),
         (final_world decode self files output_path metadata_path w).
  split; [apply create_atlas_run; [exact Hout | lia | lia]|].
  split; [apply final_world_saves|].
  assert (Hindex : forall k, index (entry_of self (side_of self files)
                      (atlas_size_of self files) k) = k).
  { intros k. unfold entry_of. now destruct (cell_origin self (side_of self files) k). }
  cbn [final_metadata md_textures_per_row md_textures].
  split; [|split; [|split]].
  - destruct (packed_recorded decode self files w i f imf HT Hn Hi Hdf) as [e He].
    exists e. split; [exact He|].
    destruct (packed_entry decode self files w _ e HT Hn He)
      as (k & h & im & Hk & Hdh & Hnh & -> & Hlast).
    rewrite Hindex.
    assert (Hjk : (j <= k)%nat).
    { destruct (Nat.le_gt_cases j k) as [|Hlt]; [assumption|].
      rewrite (Hlast j g Hlt Hj ltac:(congruence)) in Hdg. discriminate. }
    split; [lia|]. intros Hglast.
    destruct (Nat.eq_dec j k) as [->|Hne]; [reflexivity|].
    rewrite (Hglast k h ltac:(lia) Hk ltac:(congruence)) in Hdh. discriminate.
  - intros name e He Hidx.
    destruct (packed_entry decode self files w name e HT Hn He)
      as (k & h & im & Hk & Hdh & Hnh & -> & Hlast).
    rewrite Hindex in Hidx. apply Nat2Z.inj in Hidx. subst k.
    assert (h = f) by congruence. subst h.
    rewrite (Hlast j g Hij Hj ltac:(congruence)) in Hdg. discriminate.
  - intros dx dy Hdx Hdy. now apply (packed_pixel decode self files w i f imf).
  - intros dx dy Hdx Hdy. now apply (packed_pixel decode self files w j g img).
Qed.

(** C9. With no source texture the run produces nothing and fails:
    [main] prints an error, writes no file and returns status 1 without
    calling [create_atlas]; [create_atlas] itself, given an empty list,
    raises before it creates or writes anything. *)
Theorem C9_no_inputs glob self output_path metadata_path w :
  glob "resources/textures/raw_blocks/*.png" = [] ->
  glob "resources/textures/raw_blocks/*.jpg" = [] ->
  glob "resources/textures/raw_blocks/*.jpeg" = [] ->
  (exists w', main decode glob w = (Ok 1, w') /\ written w' = written w /\
              stdout w' = stdout w ++ [ErrNoTextures "resources/textures/raw_blocks"]) /\
  (exists e w',
     create_atlas decode self [] output_path metadata_path w = (Raise e, w') /\
     written w' = written w /\
     (0 <= max_textures self -> e = ZeroDivisionError)).
Proof.
  intros Hpng Hjpg Hjpeg. split.
  - unfold main. cbv zeta. cbn [map concat].
    replace (path_join "resources/textures/raw_blocks" "*.png")
      with ("resources/textures/raw_blocks/*.png" : string) by reflexivity.
    replace (path_join "resources/textures/raw_blocks" "*.jpg")
      with ("resources/textures/raw_blocks/*.jpg" : string) by reflexivity.
    replace (path_join "resources/textures/raw_blocks" "*.jpeg")
      with ("resources/textures/raw_blocks/*.jpeg" : string) by reflexivity.
    rewrite Hpng, Hjpg, Hjpeg. cbn [app].
    eexists. split; [reflexivity|]. split; reflexivity.
  - unfold create_atlas. cbv zeta. change (Z.of_nat (length (@nil string))) with 0.
    unfold bind, print, modify, ret, lift, math_ceil_sqrt, truediv.
    destruct (max_textures self <? 0) eqn:Hcap; cbn [fst snd]; rewrite ?Hcap.
    + apply Z.ltb_lt in Hcap.
      eexists. eexists. split; [reflexivity|]. split; [reflexivity|]. lia.
    + eexists. eexists. split; [reflexivity|]. split; [reflexivity|]. reflexivity.
Qed.

(** C10. When the capacity check cuts the list and the tile fits the
    target ([0 < T <= target]), the processed count is the square of
    [side = floor(target / T)], the grid has exactly [side] cells per
    side, the atlas edge is [side * T], which is at most the target, and
    every cell of the grid is occupied: cell [(row, col)] belongs to the
    processed file of index [row * side + col], the saved atlas shows
    that file's texture there and the metadata records it at that cell;
    only a file that does not decode leaves its cell transparent. With
    no decode failure every pixel of the atlas is a pixel of a texture. *)
Theorem C10_truncated_grid_is_full T target self files output_path metadata_path w :
  dirname output_path <> "" ->
  __init__ T target = Ok self ->
  0 < T <= target ->
  max_textures self < Z.of_nat (length files) ->
  exists md atlas w',
    create_atlas decode self files output_path metadata_path w = (Ok md, w') /\
    saves w w' output_path atlas /\
    let side := target / T in
    processed_count self files = side ^ 2 /\
    Z.of_nat (length (processed self files)) = side ^ 2 /\
    md_textures_per_row md = side /\
    md_atlas_size md = side * T /\
    md_atlas_size md <= target /\
    im_size atlas = (side * T, side * T) /\
    (forall row col, 0 <= row < side -> 0 <= col < side ->
       exists (k : nat) f,
         processed self files !! k = Some f /\
         Z.of_nat k / side = row /\ Z.of_nat k mod side = col /\
         (forall im, decode f = Some im ->
            (forall dx dy, 0 <= dx < T -> 0 <= dy < T ->
               getpixel atlas (col * T + dx) (row * T + dy)
               = getpixel (fit self im) dx dy) /\
            ((forall (k' : nat) f', (k < k')%nat ->
                processed self files !! k' = Some f' ->
                tex_name_of f' = tex_name_of f -> decode f' = None) ->
             exists e, md_textures md !! tex_name_of f = Some e /\
                       index e = Z.of_nat k /\
                       position e = (col * T, row * T))) /\
         (decode f = None ->
          forall dx dy, 0 <= dx < T -> 0 <= dy < T ->
            getpixel atlas (col * T + dx) (row * T + dy) = transparent)) /\
    ((forall f, f ∈ processed self files -> decode f <> None) ->
     forall px py, 0 <= px < side * T -> 0 <= py < side * T ->
       exists (k : nat) f im,
         processed self files !! k = Some f /\ decode f = Some im /\
         Z.of_nat k = py / T * side + px / T /\
         getpixel atlas px py = getpixel (fit self im) (px mod T) (py mod T)).
Proof.
  intros Hout Hinit HT Hlen. unfold __init__, floordiv in Hinit.
  destruct (Z.eqb_spec T 0) as [|_]; [lia|]. injection Hinit as <-.
  cbn [max_textures] in Hlen.
  set (self := {| texture_size := T; target_atlas_size := target;
                  textures_per_row := target / T;
                  max_textures := (target / T) ^ 2 |}).
  assert (Hside : 1 <= target / T) by (apply Z.div_le_lower_bound; lia).
  assert (Hcount : processed_count self files = (target / T) ^ 2).
  { unfold processed_count. cbn [max_textures self].
    now rewrite (proj2 (Z.ltb_lt _ _) Hlen). }
  assert (Hn : 1 <= processed_count self files) by (rewrite Hcount; nia).
  assert (Hs : side_of self files = target / T).
  { unfold side_of. rewrite Hcount. apply ceil_sqrt_square. lia. }
  assert (HT' : 0 < texture_size self) by (cbn [texture_size self]; lia).
  (* the file of a cell, its tile in the atlas and its entry *)
  assert (Hcell : forall row col, 0 <= row < target / T -> 0 <= col < target / T ->
    exists (k : nat) f,
      processed self files !! k = Some f /\
      Z.of_nat k = row * (target / T) + col /\
      Z.of_nat k / (target / T) = row /\ Z.of_nat k mod (target / T) = col).
  { intros row col Hrow Hcol.
    destruct (lookup_lt_is_Some_2 (processed self files)
                (Z.to_nat (row * (target / T) + col))) as [f Hf].
    { apply Nat2Z.inj_lt. rewrite processed_count_length by lia. rewrite Hcount. nia. }
    exists (Z.to_nat (row * (target / T) + col)), f.
    rewrite Z2Nat.id by nia. split; [exact Hf|]. split; [reflexivity|]. split.
    - rewrite Z.div_add_l by lia. rewrite Z.div_small by lia. lia.
    - rewrite Z.add_comm, Z.mod_add by lia. apply Z.mod_small. lia. }
  exists (final_metadata decode self files w), (atlas (packed decode self files w)),
         (final_world decode self files output_path metadata_path w).
  split; [apply create_atlas_run; [exact Hout | cbn [texture_size self]; lia | exact Hn]|].
  split; [apply final_world_saves|].
  cbn [final_metadata md_textures_per_row md_atlas_size md_textures].
  rewrite packed_atlas_size by (cbn [texture_size self]; lia).
  unfold atlas_size_of. rewrite Hs. cbn [texture_size self].
  split; [exact Hcount|].
  split; [rewrite processed_count_length; lia|].
  split; [reflexivity|]. split; [reflexivity|].
  split; [rewrite Z.mul_comm; apply Z.mul_div_le; lia|].
  split; [reflexivity|]. split.
  - intros row col Hrow Hcol.
    destruct (Hcell row col Hrow Hcol) as (k & f & Hf & _ & Hkrow & Hkcol).
    exists k, f. split; [exact Hf|]. split; [exact Hkrow|]. split; [exact Hkcol|].
    split.
    + intros im Hd. split.
      * intros dx dy Hdx Hdy.
        pose proof (packed_pixel decode self files w k f im dx dy HT' Hn Hf Hd Hdx Hdy)
          as Hp.
        rewrite Hs, Hkrow, Hkcol in Hp. exact Hp.
      * intros Hlast. eexists.
        split; [apply (packed_last decode self files w k f im HT' Hn Hf Hd Hlast)|].
        rewrite entry_of_index, entry_of_position. unfold cell_origin.
        rewrite Hs, Hkrow, Hkcol. split; reflexivity.
    + intros Hd dx dy Hdx Hdy.
      pose proof (packed_transparent decode self files w k f dx dy HT' Hn Hf Hd Hdx Hdy)
        as Hp.
      rewrite Hs, Hkrow, Hkcol in Hp. exact Hp.
  - intros Hall px py Hpx Hpy.
    assert (Hrow : 0 <= py / T < target / T).
    { split; [apply Z.div_pos; lia | apply Z.div_lt_upper_bound; nia]. }
    assert (Hcol : 0 <= px / T < target / T).
    { split; [apply Z.div_pos; lia | apply Z.div_lt_upper_bound; nia]. }
    destruct (Hcell (py / T) (px / T) Hrow Hcol) as (k & f & Hf & Hk & Hkrow & Hkcol).
    destruct (decode f) as [im|] eqn:Hd;
      [|exfalso; apply (Hall f); [eapply list_elem_of_lookup_2; exact Hf | exact Hd]].
    exists k, f, im. split; [exact Hf|]. split; [exact Hd|]. split; [exact Hk|].
    pose proof (Z.mod_pos_bound px T ltac:(lia)) as Hdx.
    pose proof (Z.mod_pos_bound py T ltac:(lia)) as Hdy.
    pose proof (packed_pixel decode self files w k f im (px mod T) (py mod T)
                  HT' Hn Hf Hd Hdx Hdy) as Hp.
    rewrite Hs, Hkrow, Hkcol in Hp. cbn [texture_size self] in Hp.
    rewrite <- Hp. f_equal.
    + pose proof (Z.div_mod px T ltac:(lia)). lia.
    + pose proof (Z.div_mod py T ltac:(lia)). lia.
Qed.

End Claims.

Lemma C1_witness :
  exists md atlas w',
    create_atlas demo_decode main_builder five_files out_png None w0 = (Ok md, w') /\
    saves w0 w' out_png atlas /\
    md_textures_per_row md = 3 /\ md_atlas_size md = 48 /\ im_size atlas = (48, 48).
Proof.
  destruct (C1_grid_is_least_square demo_decode main_builder five_files out_png None w0)
    as (md & atlas & w' & Hrun & Hsave & Hside & _ & _ & Hsize & Hatlas).
  - vm_compute. discriminate.
  - vm_compute. reflexivity.
  - vm_compute. discriminate.
  - exists md, atlas, w'. rewrite Hside in Hsize, Hatlas.
    repeat split; assumption.
Defined.

(** In the lists of the examples no later file shares the name of the
    file looked at. *)
Ltac no_later_namesake :=
  let k := fresh "k" in
  let f := fresh "f" in
  let Hlt := fresh "Hlt" in
  let Hk := fresh "Hk" in
  let Hname := fresh "Hname" in
  intros k f Hlt Hk Hname;
  repeat (destruct k as [|k];
          [ try lia; vm_compute in Hk; injection Hk as <-;
            vm_compute in Hname; discriminate
          | ]);
  vm_compute in Hk; discriminate.

Lemma C2_witness :
  exists md atlas w',
    create_atlas demo_decode main_builder five_files out_png None w0 = (Ok md, w') /\
    saves w0 w' out_png atlas /\
    md_textures_per_row md = 3 /\
    exists e, md_textures md !! "d" = Some e /\ index e = 3 /\ position e = (0, 16).
Proof.
  destruct (C2_cell_of_index demo_decode main_builder five_files out_png None w0)
    as (md & atlas & w' & Hrun & Hsave & Hside & _ & Hcell).
  - vm_compute. discriminate.
  - vm_compute. reflexivity.
  - vm_compute. discriminate.
  - exists md, atlas, w'. split; [exact Hrun|]. split; [exact Hsave|].
    split; [exact Hside|].
    destruct (Hcell 3%nat "raw/d.png" (blank 16 16 (255, 0, 0, 255)) eq_refl eq_refl)
      as [_ Hentry].
    destruct Hentry as (e & He & Hidx & Hpos); [no_later_namesake|].
    exists e. rewrite Hside in Hpos. repeat split; assumption.
Defined.

Lemma C3_witness :
  exists md w',
    create_atlas demo_decode main_builder five_files out_png None w0 = (Ok md, w') /\
    exists e, md_textures md !! "d" = Some e /\
              position e = (0, 16) /\
              (fst (uv_min e) == 0 /\ snd (uv_min e) == 1 # 3)%Q /\
              (fst (uv_max e) == 1 # 3 /\ snd (uv_max e) == 2 # 3)%Q /\
              in_unit (snd (uv_min e)) /\ in_unit (snd (uv_max e)).
Proof.
  destruct (C3_uv_rectangle demo_decode main_builder five_files out_png None w0)
    as (md & w' & Hrun & Huv).
  - vm_compute. discriminate.
  - vm_compute. reflexivity.
  - vm_compute. discriminate.
  - exists md, w'. split; [exact Hrun|].
    exists (entry_of main_builder 3 48 3).
    assert (Hmd : md = final_metadata demo_decode main_builder five_files w0).
    { rewrite create_atlas_run in Hrun;
        [congruence | vm_compute; discriminate | vm_compute; discriminate
        | vm_compute; discriminate]. }
    assert (Hl : md_textures md !! "d" = Some (entry_of main_builder 3 48 3)).
    { rewrite Hmd. vm_compute. reflexivity. }
    destruct (Huv "d" _ Hl) as (_ & _ & _ & Hv0 & _ & Hv1).
    split; [exact Hl|]. split; [reflexivity|].
    split; [split; vm_compute; reflexivity|].
    split; [split; vm_compute; reflexivity|].
    split; assumption.
Defined.

Lemma C5_witness :
  exists md atlas w',
    create_atlas demo_decode main_builder five_files out_png None w0 = (Ok md, w') /\
    saves w0 w' out_png atlas /\
    im_size atlas = (md_atlas_size md, md_atlas_size md) /\
    forall name e, md_textures md !! name = Some e ->
      0 <= fst (position e) /\ 0 <= snd (position e) /\
      fst (position e) + 16 <= md_atlas_size md /\
      snd (position e) + 16 <= md_atlas_size md.
Proof.
  destruct (C5_cells_inside_atlas demo_decode main_builder five_files out_png None w0)
    as (md & atlas & w' & Hrun & Hsave & Hsize & Hent & _).
  - vm_compute. discriminate.
  - vm_compute. reflexivity.
  - vm_compute. discriminate.
  - exists md, atlas, w'. repeat split; try assumption; now apply (Hent name e).
Defined.

Lemma C6_witness :
  exists md atlas w',
    create_atlas demo_decode main_builder three_files out_png None w0 = (Ok md, w') /\
    saves w0 w' out_png atlas /\
    size (md_textures md) = 2%nat /\
    (forall name e, md_textures md !! name = Some e -> index e <> 1) /\
    getpixel atlas 16 0 = transparent /\
    getpixel atlas 0 16 = (255, 0, 0, 255).
Proof.
  destruct (C6_undecodable_is_skipped demo_decode main_builder three_files out_png None w0
              1%nat "raw/broken.png")
    as (md & atlas & w' & Hrun & Hsave & Hskip & Hclear & Hrest).
  - vm_compute. discriminate.
  - vm_compute. reflexivity.
  - vm_compute. discriminate.
  - reflexivity.
  - reflexivity.
  - assert (Hmd : md = final_metadata demo_decode main_builder three_files w0).
    { rewrite create_atlas_run in Hrun;
        [congruence | vm_compute; discriminate | vm_compute; discriminate
        | vm_compute; discriminate]. }
    exists md, atlas, w'. split; [exact Hrun|]. split; [exact Hsave|].
    split; [rewrite Hmd; vm_compute; reflexivity|].
    split; [exact Hskip|]. split.
    + rewrite Hmd in Hclear. apply (Hclear 0 0); vm_compute; split; congruence.
    + destruct (Hrest 2%nat "raw/c.png" (blank 16 16 (255, 0, 0, 255)) eq_refl eq_refl)
        as [Hpix _].
      rewrite Hmd in Hpix. apply (Hpix 0 0); vm_compute; split; congruence.
Defined.

(** C7 as stated fails when two files share a name: both decode, yet
    index 0 is not among the stored indices. *)
Lemma C7_counterexample :
  exists md w',
    create_atlas demo_decode main_builder colliding_files out_png None w0 = (Ok md, w') /\
    (forall f, f ∈ processed main_builder colliding_files -> demo_decode f <> None) /\
    1 <= processed_count main_builder colliding_files /\
    ~ indices_cover md (processed_count main_builder colliding_files).
Proof.
  exists (final_metadata demo_decode main_builder colliding_files w0),
         (final_world demo_decode main_builder colliding_files out_png None w0).
  split; [apply create_atlas_run; vm_compute; discriminate|].
  split.
  { intros f Hf. vm_compute in Hf.
    apply elem_of_cons in Hf as [->|Hf]; [vm_compute; discriminate|].
    apply elem_of_cons in Hf as [->|Hf]; [vm_compute; discriminate|].
    inversion Hf. }
  split; [vm_compute; discriminate|].
  intros Hcover. destruct (Hcover 0) as (name & e & He & Hidx); [vm_compute; split; congruence|].
  cbn [final_metadata md_textures] in He.
  destruct (packed_entry demo_decode main_builder colliding_files w0 name e) as
    (k & f & im & Hk & Hd & Hname & -> & Hlast);
    [vm_compute; reflexivity | vm_compute; discriminate | exact He |].
  rewrite entry_of_index in Hidx. assert (k = 0%nat) as -> by lia.
  vm_compute in Hk. injection Hk as <-.
  specialize (Hlast 1%nat "raw/stone.jpg" ltac:(lia) eq_refl).
  rewrite <- Hname in Hlast. specialize (Hlast eq_refl). discriminate.
Qed.

Lemma C7_witness :
  exists md w',
    create_atlas demo_decode main_builder five_files out_png None w0 = (Ok md, w') /\
    indices_distinct md /\ indices_in_range md 5 /\ indices_cover md 5.
Proof.
  destruct (C7_indices demo_decode main_builder five_files out_png None w0)
    as (md & w' & Hrun & Hdist & Hrange & Hcover).
  - vm_compute. discriminate.
  - vm_compute. reflexivity.
  - vm_compute. discriminate.
  - intros f Hf. vm_compute in Hf.
    repeat (apply elem_of_cons in Hf as [->|Hf]; [vm_compute; discriminate|]).
    inversion Hf.
  - exists md, w'. split; [exact Hrun|]. split; [exact Hdist|].
    split; [exact Hrange|]. apply Hcover.
    apply (bool_decide_unpack (NoDup (tex_name_of <$> processed main_builder five_files))).
    vm_compute. exact I.
Defined.

Lemma C8_witness :
  exists md atlas w',
    create_atlas demo_decode main_builder colliding_files out_png None w0 = (Ok md, w') /\
    saves w0 w' out_png atlas /\
    (exists e, md_textures md !! "stone" = Some e /\ index e = 1) /\
    (forall name e, md_textures md !! name = Some e -> index e <> 0) /\
    getpixel atlas 0 0 = (255, 0, 0, 255) /\
    getpixel atlas 16 0 = (0, 255, 0, 255).
Proof.
  destruct (C8_collision_overwrites demo_decode main_builder colliding_files out_png None w0
              0%nat 1%nat "raw/stone.png" "raw/stone.jpg"
              (blank 16 16 (255, 0, 0, 255)) (blank 16 16 (0, 255, 0, 255)))
    as (md & atlas & w' & Hrun & Hsave & Hlater & Hgone & Hfirst & Hsecond).
  - vm_compute. discriminate.
  - vm_compute. reflexivity.
  - vm_compute. discriminate.
  - lia.
  - reflexivity.
  - reflexivity.
  - reflexivity.
  - reflexivity.
  - reflexivity.
  - assert (Hmd : md = final_metadata demo_decode main_builder colliding_files w0).
    { rewrite create_atlas_run in Hrun;
        [congruence | vm_compute; discriminate | vm_compute; discriminate
        | vm_compute; discriminate]. }
    exists md, atlas, w'. split; [exact Hrun|]. split; [exact Hsave|].
    split.
    { destruct Hlater as (e & He & _ & Hlast). exists e. split; [exact He|].
      apply Hlast. no_later_namesake. }
    split; [exact Hgone|].
    rewrite Hmd in Hfirst, Hsecond.
    split; [apply (Hfirst 0 0) | apply (Hsecond 0 0)]; vm_compute; split; congruence.
Defined.

Lemma C9_witness :
  (exists w', main demo_decode (fun _ => []) w0 = (Ok 1, w') /\ written w' = []) /\
  (exists e w',
     create_atlas demo_decode main_builder [] out_png None w0 = (Raise e, w') /\
     written w' = [] /\ e = ZeroDivisionError).
Proof.
  destruct (C9_no_inputs demo_decode (fun _ => []) main_builder out_png None w0
              eq_refl eq_refl eq_refl)
    as [(w1 & Hmain & Hw1 & _) (e & w2 & Hrun & Hw2 & He)].
  split.
  - exists w1. split; assumption.
  - exists e, w2. split; [exact Hrun|]. split; [exact Hw2|].
    apply He. vm_compute. discriminate.
Defined.

Lemma C10_witness :
  exists md atlas w',
    create_atlas demo_decode small_builder six_files out_png None w0 = (Ok md, w') /\
    saves w0 w' out_png atlas /\
    processed_count small_builder six_files = 4 /\
    md_textures_per_row md = 2 /\ md_atlas_size md = 32 /\
    im_size atlas = (32, 32) /\
    (exists (k : nat) f,
       processed small_builder six_files !! k = Some f /\
       Z.of_nat k / 2 = 1 /\ Z.of_nat k mod 2 = 1) /\
    getpixel atlas 16 16 = (255, 0, 0, 255) /\
    (exists e, md_textures md !! "d" = Some e /\ index e = 3 /\ position e = (16, 16)).
Proof.
  destruct (C10_truncated_grid_is_full demo_decode 16 32 small_builder six_files
              out_png None w0)
    as (md & atlas & w' & Hrun & Hsave & Hcount & _ & Hside & Hsize & _ & Hatlas
        & Hfull & _).
  - vm_compute. discriminate.
  - reflexivity.
  - lia.
  - vm_compute. reflexivity.
  - exists md, atlas, w'. split; [exact Hrun|]. split; [exact Hsave|].
    split; [exact Hcount|]. split; [exact Hside|]. split; [exact Hsize|].
    split; [exact Hatlas|].
    destruct (Hfull 1 1) as (k & f & Hf & Hrow & Hcol & Hshown & _);
      [vm_compute; split; congruence | vm_compute; split; congruence |].
    change (32 / 16) with 2 in Hrow, Hcol.
    assert (k = 3%nat) as ->.
    { pose proof (Z.div_mod (Z.of_nat k) 2 ltac:(lia)). lia. }
    vm_compute in Hf. injection Hf as <-.
    destruct (Hshown (blank 16 16 (255, 0, 0, 255)) eq_refl) as [Hpix Hentry].
    split; [exists 3%nat, "raw/d.png"; repeat split; reflexivity|].
    split.
    + apply (Hpix 0 0); lia.
    + apply Hentry. no_later_namesake.
Defined.

(** * Further properties of the constructor, the packer and [main] *)

(** ** The constructor *)

(** X1. The constructor raises exactly when the tile size is zero.
    Otherwise it stores its arguments, the capacity is the square of
    the tiles per row and is not negative, and for a positive tile size
    the tiles per row are the largest number of tiles that fit the
    target edge. *)
Theorem X1_constructor T target :
  (T = 0 -> __init__ T target = Raise ZeroDivisionError) /\
  (T <> 0 ->
   exists self,
     __init__ T target = Ok self /\
     texture_size self = T /\ target_atlas_size self = target /\
     max_textures self = textures_per_row self ^ 2 /\
     0 <= max_textures self /\
     (0 < T ->
      textures_per_row self * T <= target < (textures_per_row self + 1) * T)).
Proof.
  unfold __init__, floordiv. split.
  - intros ->. reflexivity.
  - intros HT. destruct (Z.eqb_spec T 0) as [|_]; [contradiction|].
    eexists. split; [reflexivity|]. cbn [texture_size target_atlas_size
      max_textures textures_per_row].
    repeat split; try nia.
    + pose proof (Z.mul_div_le target T H). lia.
    + pose proof (Z.mul_succ_div_gt target T H). lia.
Qed.

Section Further.

Variable decode : string -> option image.

(** ** The atlas and its target *)

(** X2. For a builder made by the constructor with a positive tile
    size and a target that is not negative, the grid never has more
    cells per side than the tiles per row of the target and the atlas
    edge never exceeds the target edge, whatever the number of files. *)
Theorem X2_atlas_within_target T target self files output_path metadata_path w :
  dirname output_path <> "" ->
  __init__ T target = Ok self ->
  0 < T -> 0 <= target ->
  1 <= processed_count self files ->
  exists md w',
    create_atlas decode self files output_path metadata_path w = (Ok md, w') /\
    processed_count self files <= max_textures self /\
    md_textures_per_row md <= textures_per_row self /\
    md_atlas_size md <= target.
Proof.
  intros Hout Hinit HT Htarget Hn. unfold __init__, floordiv in Hinit.
  destruct (Z.eqb_spec T 0) as [|_]; [lia|]. injection Hinit as <-.
  set (self := {| texture_size := T; target_atlas_size := target;
                  textures_per_row := target / T;
                  max_textures := (target / T) ^ 2 |}) in *.
  exists (final_metadata decode self files w),
         (final_world decode self files output_path metadata_path w).
  split; [apply create_atlas_run; [exact Hout | cbn [texture_size self]; lia | exact Hn]|].
  assert (Hrow : 0 <= target / T) by (apply Z.div_pos; lia).
  assert (Hcap : processed_count self files <= (target / T) ^ 2).
  { unfold processed_count in *. cbn [max_textures self] in *.
    destruct (Z.ltb_spec ((target / T) ^ 2) (Z.of_nat (length files))); lia. }
  assert (Hside : side_of self files <= target / T).
  { unfold side_of. apply ceil_sqrt_least; lia. }
  cbn [final_metadata md_textures_per_row md_atlas_size max_textures
       textures_per_row self].
  split; [exact Hcap|]. split; [exact Hside|].
  unfold atlas_size_of. cbn [texture_size self].
  pose proof (Z.mul_div_le target T HT). nia.
Qed.

(** X3. The utilization a run prints is the processed count over the
    number of cells, in percent; it is above 25 and at most 100: the
    grid never has four times as many cells as textures. *)
Theorem X3_utilization self files output_path metadata_path w :
  dirname output_path <> "" ->
  0 < texture_size self ->
  1 <= processed_count self files ->
  exists md w' u,
    create_atlas decode self files output_path metadata_path w = (Ok md, w') /\
    InfoUtilization u ∈ stdout w' /\
    u = (inject_Z (processed_count self files)
         / inject_Z (md_textures_per_row md ^ 2) * 100)%Q /\
    (25 < u)%Q /\ (u <= 100)%Q /\
    md_textures_per_row md ^ 2 < 4 * processed_count self files.
Proof.
  intros Hout HT Hn.
  exists (final_metadata decode self files w),
         (final_world decode self files output_path metadata_path w).
  eexists. split; [apply create_atlas_run; [exact Hout | lia | lia]|].
  split.
  { apply final_world_announced. unfold announced. apply elem_of_app. right.
    do 4 constructor 2. constructor 1. }
  cbn [final_metadata md_textures_per_row]. split; [reflexivity|].
  destruct (side_of_bounds self files Hn) as (Hs & Hle & Hlt).
  assert (Hquarter : side_of self files ^ 2 < 4 * processed_count self files) by nia.
  assert (Hcells : 0 < side_of self files ^ 2) by nia.
  destruct (side_of self files ^ 2) as [|cells|cells] eqn:Hc; try lia.
  repeat split; try assumption.
  - unfold Qlt, Qdiv, Qmult, Qinv, inject_Z. simpl. lia.
  - unfold Qle, Qdiv, Qmult, Qinv, inject_Z. simpl. lia.
Qed.

(** ** Cells *)

(** X4. Placement is row major and can be inverted: an entry at pixel
    origin [(x, y)] has index [(y / T) * side + x / T], so entries under
    different names have different origins, and the tiles recorded
    under different names share no pixel. *)
Theorem X4_addressing_inverts self files output_path metadata_path w :
  dirname output_path <> "" ->
  0 < texture_size self ->
  1 <= processed_count self files ->
  exists md w',
    create_atlas decode self files output_path metadata_path w = (Ok md, w') /\
    let side := md_textures_per_row md in
    let T := texture_size self in
    (forall name e, md_textures md !! name = Some e ->
       index e = snd (position e) / T * side + fst (position e) / T) /\
    (forall name1 name2 e1 e2,
       md_textures md !! name1 = Some e1 -> md_textures md !! name2 = Some e2 ->
       position e1 = position e2 -> name1 = name2) /\
    (forall name1 name2 e1 e2 px py,
       md_textures md !! name1 = Some e1 -> md_textures md !! name2 = Some e2 ->
       in_box (position e1) (T, T) px py = true ->
       in_box (position e2) (T, T) px py = true -> name1 = name2).
Proof.
  intros Hout HT Hn.
  exists (final_metadata decode self files w),
         (final_world decode self files output_path metadata_path w).
  split; [apply create_atlas_run; [exact Hout | lia | lia]|].
  cbn [final_metadata md_textures_per_row md_textures].
  destruct (side_of_bounds self files Hn) as (Hs & _ & _).
  assert (Hpos : forall k, position (entry_of self (side_of self files)
                     (atlas_size_of self files) k)
                   = cell_origin self (side_of self files) k).
  { intros k. unfold entry_of. now destruct (cell_origin self (side_of self files) k). }
  assert (Hinv : forall name e,
            textures (packed decode self files w) !! name = Some e ->
            index e = snd (position e) / texture_size self * side_of self files
                      + fst (position e) / texture_size self).
  { intros name e He.
    destruct (packed_entry decode self files w name e HT Hn He)
      as (k & f & im & _ & _ & _ & -> & _).
    rewrite entry_of_index, Hpos. unfold cell_origin. cbn [fst snd].
    rewrite !Z.div_mul by lia.
    rewrite (Z.div_mod (Z.of_nat k) (side_of self files)) at 1 by lia. lia. }
  assert (Hname : forall name1 name2 e1 e2,
            textures (packed decode self files w) !! name1 = Some e1 ->
            textures (packed decode self files w) !! name2 = Some e2 ->
            index e1 = index e2 -> name1 = name2).
  { intros name1 name2 e1 e2 H1 H2 Heq.
    destruct (packed_entry decode self files w name1 e1 HT Hn H1)
      as (k1 & f1 & im1 & Hk1 & _ & Hn1 & -> & _).
    destruct (packed_entry decode self files w name2 e2 HT Hn H2)
      as (k2 & f2 & im2 & Hk2 & _ & Hn2 & -> & _).
    rewrite !entry_of_index in Heq. apply Nat2Z.inj in Heq. subst k2. congruence. }
  split; [exact Hinv|]. split.
  - intros name1 name2 e1 e2 H1 H2 Heq. apply (Hname name1 name2 e1 e2 H1 H2).
    rewrite (Hinv name1 e1 H1), (Hinv name2 e2 H2). now rewrite Heq.
  - intros name1 name2 e1 e2 px py H1 H2 Hin1 Hin2.
    apply (Hname name1 name2 e1 e2 H1 H2).
    destruct (packed_entry decode self files w name1 e1 HT Hn H1)
      as (k1 & f1 & im1 & _ & _ & _ & -> & _).
    destruct (packed_entry decode self files w name2 e2 HT Hn H2)
      as (k2 & f2 & im2 & _ & _ & _ & -> & _).
    rewrite Hpos in Hin1, Hin2. rewrite !entry_of_index.
    apply (in_cell_unique self (side_of self files) ltac:(lia) HT _ _ px py Hin1 Hin2).
Qed.

(** X5. What no texture was pasted over is transparent: a pixel outside
    the cells of the processed textures that decode is transparent, and
    so is every cell of the grid beyond the last placement. *)
Theorem X5_unused_is_transparent self files output_path metadata_path w :
  dirname output_path <> "" ->
  0 < texture_size self ->
  1 <= processed_count self files ->
  exists md atlas w',
    create_atlas decode self files output_path metadata_path w = (Ok md, w') /\
    saves w w' output_path atlas /\
    let side := md_textures_per_row md in
    let T := texture_size self in
    (forall px py,
       (forall (k : nat) f im, processed self files !! k = Some f ->
          decode f = Some im -> in_cell self side (Z.of_nat k) px py = false) ->
       getpixel atlas px py = transparent) /\
    (forall idx dx dy,
       processed_count self files <= idx -> 0 <= dx < T -> 0 <= dy < T ->
       getpixel atlas (idx mod side * T + dx) (idx / side * T + dy) = transparent).
Proof.
  intros Hout HT Hn.
  exists (final_metadata decode self files w), (atlas (packed decode self files w)),
         (final_world decode self files output_path metadata_path w).
  split; [apply create_atlas_run; [exact Hout | lia | lia]|].
  split; [apply final_world_saves|].
  cbn [final_metadata md_textures_per_row].
  destruct (side_of_bounds self files Hn) as (Hs & _ & _).
  pose proof (atlas_size_of_pos self files HT Hn) as Ha.
  assert (Hclear : forall px py,
    (forall (k : nat) f im, processed self files !! k = Some f ->
       decode f = Some im ->
       in_cell self (side_of self files) (Z.of_nat k) px py = false) ->
    getpixel (atlas (packed decode self files w)) px py = transparent).
  { intros px py Hfree. unfold packed.
    rewrite (loop_pixel_untouched decode self (side_of self files)
               (atlas_size_of self files) ltac:(lia) ltac:(lia)); [reflexivity|].
    intros k f im Hk Hd. rewrite Z.add_0_l. exact (Hfree k f im Hk Hd). }
  split; [exact Hclear|].
  intros idx dx dy Hidx Hdx Hdy. apply Hclear. intros k f im Hk Hd.
  pose proof (processed_lookup_lt self files k f Hn Hk) as Hlt.
  destruct (in_cell self (side_of self files) (Z.of_nat k) _ _) eqn:Hin; [|reflexivity].
  assert (Hmine : in_cell self (side_of self files) idx
            (idx mod side_of self files * texture_size self + dx)
            (idx / side_of self files * texture_size self + dy) = true).
  { unfold in_cell, in_box, cell_origin. cbn [fst snd].
    rewrite !andb_true_iff, !Z.leb_le, !Z.ltb_lt. lia. }
  pose proof (in_cell_unique self (side_of self files) ltac:(lia) HT _ _ _ _ Hin Hmine).
  lia.
Qed.

End Further.

(** ** More on the packing loop *)

Section LoopFacts.

Variable decode : string -> option image.
Variable self : TextureAtlasBuilder.
Variables textures_per_side actual_atlas_size : Z.
Hypothesis side_pos : 0 < textures_per_side.
Hypothesis atlas_nonzero : actual_atlas_size <> 0.

Local Abbreviation step := (paste_texture decode self textures_per_side actual_atlas_size).
Local Abbreviation loop := (run_loop decode self textures_per_side actual_atlas_size).
Local Abbreviation entry := (entry_of self textures_per_side actual_atlas_size).

(** The loop adds at most one entry per file. *)
Lemma loop_size_le files : forall idx st,
  (size (textures (loop idx files st)) <= size (textures st) + length files)%nat.
Proof.
  induction files as [|f files IH]; intros idx st;
    [rewrite loop_nil; apply Nat.le_add_r|].
  rewrite loop_cons. etrans; [apply IH|]. cbn [length].
  generalize (length files). intros n.
  destruct (decode f) as [im|] eqn:Hd.
  - destruct (step_decoded decode self textures_per_side actual_atlas_size idx f im st ltac:(lia) atlas_nonzero Hd)
      as [c ->].
    cbn [snd textures]. rewrite map_size_insert.
    generalize (size (textures st)). intros m.
    destruct (textures st !! tex_name_of f); simpl; lia.
  - rewrite (step_undecodable decode self textures_per_side actual_atlas_size idx f st Hd). cbn [snd textures].
    generalize (size (textures st)). intros m. lia.
Qed.

(** With fresh, pairwise distinct names and no decode failure it adds
    exactly one entry per file. *)
Lemma loop_size_eq files : forall idx st,
  (forall f, f ∈ files -> decode f <> None) ->
  (forall f, f ∈ files -> textures st !! tex_name_of f = None) ->
  NoDup (tex_name_of <$> files) ->
  size (textures (loop idx files st)) = (size (textures st) + length files)%nat.
Proof.
  induction files as [|f files IH]; intros idx st Hall Hfresh Hnodup;
    [rewrite loop_nil; cbn [length]; now rewrite Nat.add_0_r|].
  rewrite loop_cons. cbn [fmap list_fmap] in Hnodup.
  apply NoDup_cons in Hnodup as [Hf Hnodup].
  destruct (decode f) as [im|] eqn:Hd; [|now destruct (Hall f ltac:(left))].
  destruct (step_decoded decode self textures_per_side actual_atlas_size idx f im st ltac:(lia) atlas_nonzero Hd)
    as [c Hstep].
  rewrite IH; rewrite ?Hstep; cbn [snd textures].
  - rewrite map_size_insert_None by (apply Hfresh; left). cbn [length].
    generalize (size (textures st)), (length files). intros m n. lia.
  - intros g Hg. apply Hall. now right.
  - intros g Hg. rewrite lookup_insert_ne; [apply Hfresh; now right|].
    intros Heq. apply Hf. rewrite Heq. now apply list_elem_of_fmap_2.
  - exact Hnodup.
Qed.

(** A file that does not decode is reported. *)
Lemma loop_reports files : forall idx st (k : nat) f,
  files !! k = Some f -> decode f = None ->
  ErrLoad f OSError ∈ console (loop idx files st).
Proof.
  induction files as [|g files IH]; intros idx st k f Hk Hd; [done|].
  rewrite loop_cons. destruct k as [|k].
  - simpl in Hk. injection Hk as ->.
    destruct (loop_console decode self textures_per_side actual_atlas_size files
                (idx + 1) (snd (step idx f st))) as [rest ->].
    rewrite (step_undecodable decode self textures_per_side actual_atlas_size idx f st Hd). cbn [snd console].
    apply elem_of_app. left. apply elem_of_app. right. constructor 1.
  - simpl in Hk. now apply (IH _ _ k f).
Qed.

End LoopFacts.

(** ** More on whole runs *)

Section RunFacts.

Variable decode : string -> option image.

(** The processed count never exceeds the capacity. *)
Lemma processed_count_le_capacity self files :
  processed_count self files <= max_textures self.
Proof.
  unfold processed_count.
  destruct (Z.ltb_spec (max_textures self) (Z.of_nat (length files))); lia.
Qed.

(** X6. When no processed file decodes the run still returns: the
    metadata has no entry and every pixel of the saved atlas is
    transparent. *)
Theorem X6_nothing_decodes self files output_path metadata_path w :
  dirname output_path <> "" ->
  0 < texture_size self ->
  1 <= processed_count self files ->
  (forall f, f ∈ processed self files -> decode f = None) ->
  exists md atlas w',
    create_atlas decode self files output_path metadata_path w = (Ok md, w') /\
    saves w w' output_path atlas /\
    md_textures md = ∅ /\
    im_size atlas = (md_atlas_size md, md_atlas_size md) /\
    forall px py, getpixel atlas px py = transparent.
Proof.
  intros Hout HT Hn Hnone.
  exists (final_metadata decode self files w), (atlas (packed decode self files w)),
         (final_world decode self files output_path metadata_path w).
  split; [apply create_atlas_run; [exact Hout | lia | lia]|].
  split; [apply final_world_saves|].
  cbn [final_metadata md_textures md_atlas_size].
  destruct (side_of_bounds self files Hn) as (Hs & _ & _).
  pose proof (atlas_size_of_pos self files HT Hn) as Ha.
  split; [|split; [now apply packed_atlas_size|]].
  - apply map_empty. intros name.
    destruct (textures (packed decode self files w) !! name) as [e|] eqn:He;
      [|reflexivity].
    destruct (packed_entry decode self files w name e HT Hn He)
      as (k & f & im & Hk & Hd & _).
    rewrite (Hnone f) in Hd; [discriminate|]. eapply list_elem_of_lookup_2, Hk.
  - intros px py. unfold packed.
    rewrite (loop_pixel_untouched decode self (side_of self files)
               (atlas_size_of self files) ltac:(lia) ltac:(lia)); [reflexivity|].
    intros k f im Hk Hd.
    rewrite (Hnone f) in Hd; [discriminate|]. eapply list_elem_of_lookup_2, Hk.
Qed.

(** X7. The metadata never has more entries than textures were
    processed, hence never more than the capacity; it has exactly one
    entry per processed texture when all of them decode and their names
    are pairwise distinct. *)
Theorem X7_entry_count self files output_path metadata_path w :
  dirname output_path <> "" ->
  0 < texture_size self ->
  1 <= processed_count self files ->
  exists md w',
    create_atlas decode self files output_path metadata_path w = (Ok md, w') /\
    Z.of_nat (size (md_textures md)) <= processed_count self files /\
    Z.of_nat (size (md_textures md)) <= max_textures self /\
    ((forall f, f ∈ processed self files -> decode f <> None) ->
     NoDup (tex_name_of <$> processed self files) ->
     Z.of_nat (size (md_textures md)) = processed_count self files).
Proof.
  intros Hout HT Hn.
  exists (final_metadata decode self files w),
         (final_world decode self files output_path metadata_path w).
  split; [apply create_atlas_run; [exact Hout | lia | lia]|].
  cbn [final_metadata md_textures].
  destruct (side_of_bounds self files Hn) as (Hs & _ & _).
  pose proof (atlas_size_of_pos self files HT Hn) as Ha.
  pose proof (processed_count_length self files ltac:(lia)) as Hlen.
  pose proof (processed_count_le_capacity self files) as Hcap.
  assert (Hle : (size (textures (packed decode self files w))
                 <= length (processed self files))%nat).
  { unfold packed.
    etrans; [apply (loop_size_le decode self (side_of self files)
                      (atlas_size_of self files) ltac:(lia) ltac:(lia))|].
    cbn [textures]. now rewrite map_size_empty. }
  split; [lia|]. split; [lia|].
  intros Hall Hnodup. rewrite <- Hlen. f_equal. unfold packed.
  rewrite (loop_size_eq decode self (side_of self files) (atlas_size_of self files)
             ltac:(lia) ltac:(lia)); cbn [textures].
  - now rewrite map_size_empty.
  - exact Hall.
  - intros f _. apply lookup_empty.
  - exact Hnodup.
Qed.

(** X8. A run that returns writes, in this order, the directory of the
    output path, the atlas at the output path and, when a metadata path
    that is not empty is given, the returned metadata at that path;
    without such a path it writes no metadata file. *)
Theorem X8_files_written self files output_path metadata_path w :
  dirname output_path <> "" ->
  0 < texture_size self ->
  1 <= processed_count self files ->
  exists md atlas w',
    create_atlas decode self files output_path metadata_path w = (Ok md, w') /\
    im_size atlas = (md_atlas_size md, md_atlas_size md) /\
    written w' =
      written w
      ++ [(dirname output_path, Directory); (output_path, PngFile atlas)]
      ++ match metadata_path with
         | Some path => if String.eqb path "" then [] else [(path, JsonFile md)]
         | None => []
         end.
Proof.
  intros Hout HT Hn.
  exists (final_metadata decode self files w), (atlas (packed decode self files w)),
         (final_world decode self files output_path metadata_path w).
  split; [apply create_atlas_run; [exact Hout | lia | lia]|].
  split; [now apply packed_atlas_size|].
  unfold final_world, metadata_file. cbn [written].
  destruct metadata_path as [path|]; [destruct (String.eqb path "")|]; reflexivity.
Qed.

(** X9. How [create_atlas] fails, for a tile size other than zero: with
    a negative count (a negative capacity) [math.sqrt] raises
    [ValueError]; with a count of zero the utilization raises
    [ZeroDivisionError]; with a negative tile size [Image.new] raises
    [ValueError]; with an output path that has no directory part
    [os.makedirs] raises [FileNotFoundError] after all textures were
    packed. In each case no file has been written. *)
Theorem X9_failures self files output_path metadata_path w :
  texture_size self <> 0 ->
  let n := processed_count self files in
  let fails e :=
    exists w', create_atlas decode self files output_path metadata_path w
               = (Raise e, w') /\ written w' = written w in
  (n < 0 -> fails ValueError) /\
  (n = 0 -> fails ZeroDivisionError) /\
  (1 <= n -> texture_size self < 0 -> fails ValueError) /\
  (1 <= n -> 0 < texture_size self -> dirname output_path = "" ->
   fails FileNotFoundError).
Proof.
  intros HT0 n fails. subst n fails. cbv beta.
  repeat split.
  - intros Hn.
    assert (Hneg : (processed_count self files <? 0) = true) by now apply Z.ltb_lt.
    unfold create_atlas, bind, print, modify, ret, lift, math_ceil_sqrt.
    unfold processed_count in *.
    destruct (max_textures self <? Z.of_nat (length files)) eqn:Hcap;
      cbn [fst snd stdout written]; rewrite Hneg; eexists; split; reflexivity.
  - intros Hn.
    unfold create_atlas, bind, print, modify, ret, lift, math_ceil_sqrt, truediv.
    unfold processed_count in *.
    destruct (max_textures self <? Z.of_nat (length files)) eqn:Hcap;
      cbn [fst snd stdout written]; rewrite Hn; cbn;
      eexists; split; reflexivity.
  - intros Hn HT.
    pose proof (ceil_sqrt_pos _ Hn) as Hside.
    assert (Hneg : (processed_count self files <? 0) = false) by (apply Z.ltb_ge; lia).
    assert (Hsq : (ceil_sqrt (processed_count self files) ^ 2 =? 0) = false)
      by (apply Z.eqb_neq; nia).
    assert (Hsz : (ceil_sqrt (processed_count self files) * texture_size self <? 0)
                  = true) by (apply Z.ltb_lt; nia).
    unfold create_atlas, bind, print, modify, ret, lift, math_ceil_sqrt, truediv,
      Image_new.
    unfold processed_count in *.
    destruct (max_textures self <? Z.of_nat (length files)) eqn:Hcap;
      cbn [fst snd stdout written]; rewrite Hneg, Hsq; cbn [fst snd stdout written];
      rewrite Hsz; cbn; eexists; split; reflexivity.
  - intros Hn HT Hout. apply String.eqb_eq in Hout.
    pose proof (ceil_sqrt_pos _ Hn) as Hside.
    assert (Hneg : (processed_count self files <? 0) = false) by (apply Z.ltb_ge; lia).
    assert (Hsq : (ceil_sqrt (processed_count self files) ^ 2 =? 0) = false)
      by (apply Z.eqb_neq; nia).
    assert (Hsz : (ceil_sqrt (processed_count self files) * texture_size self <? 0)
                  = false) by (apply Z.ltb_ge; nia).
    unfold create_atlas, paste_all, bind, print, write, modify, ret, lift, raise,
      math_ceil_sqrt, truediv, Image_new.
    unfold processed_count in *. rewrite Hout.
    destruct (max_textures self <? Z.of_nat (length files)) eqn:Hcap;
      cbn [fst snd stdout written]; rewrite Hneg, Hsq; cbn [fst snd stdout written];
      rewrite Hsz, orb_diag;
      match goal with
      | |- context [for_enumerate 0 ?fs (paste_texture ?d ?b ?s ?a) ?st] =>
          pose proof (for_enumerate_never_raises d b s a fs 0 st) as Hok;
          destruct (for_enumerate 0 fs (paste_texture d b s a) st) as [r st'];
          cbn [fst] in Hok; subst r; cbn [snd]
      end;
      eexists; split; reflexivity.
Qed.

(** X10. Every processed file that does not decode is reported on the
    console, by its path. *)
Theorem X10_failures_are_reported self files output_path metadata_path w (i : nat) f :
  dirname output_path <> "" ->
  0 < texture_size self ->
  1 <= processed_count self files ->
  processed self files !! i = Some f ->
  decode f = None ->
  exists md w',
    create_atlas decode self files output_path metadata_path w = (Ok md, w') /\
    ErrLoad f OSError ∈ stdout w'.
Proof.
  intros Hout HT Hn Hi Hd.
  exists (final_metadata decode self files w),
         (final_world decode self files output_path metadata_path w).
  split; [apply create_atlas_run; [exact Hout | lia | lia]|].
  destruct (side_of_bounds self files Hn) as (Hs & _ & _).
  pose proof (atlas_size_of_pos self files HT Hn) as Ha.
  unfold final_world. cbn [stdout]. apply elem_of_app. left. unfold packed.
  apply (loop_reports decode self (side_of self files) (atlas_size_of self files)
           _ _ _ i f Hi Hd).
Qed.

(** X11. What a cell shows. A texture that already has the tile size
    is copied into its cell pixel for pixel; any texture is sampled
    without blending: every pixel of its cell is one pixel of the
    decoded image, taken inside that image. *)
Theorem X11_tile_pixels self files output_path metadata_path w (k : nat) f im :
  dirname output_path <> "" ->
  0 < texture_size self ->
  1 <= processed_count self files ->
  processed self files !! k = Some f ->
  decode f = Some im ->
  0 < fst (im_size im) -> 0 < snd (im_size im) ->
  exists md atlas w',
    create_atlas decode self files output_path metadata_path w = (Ok md, w') /\
    saves w w' output_path atlas /\
    let side := md_textures_per_row md in
    let T := texture_size self in
    let x := Z.of_nat k mod side * T in
    let y := Z.of_nat k / side * T in
    (im_size im = (T, T) ->
     forall dx dy, 0 <= dx < T -> 0 <= dy < T ->
       getpixel atlas (x + dx) (y + dy) = getpixel im dx dy) /\
    (forall dx dy, 0 <= dx < T -> 0 <= dy < T ->
       exists sx sy,
         0 <= sx < fst (im_size im) /\ 0 <= sy < snd (im_size im) /\
         getpixel atlas (x + dx) (y + dy) = getpixel im sx sy).
Proof.
  intros Hout HT Hn Hk Hd Hw Hh.
  exists (final_metadata decode self files w), (atlas (packed decode self files w)),
         (final_world decode self files output_path metadata_path w).
  split; [apply create_atlas_run; [exact Hout | lia | lia]|].
  split; [apply final_world_saves|].
  cbn [final_metadata md_textures_per_row]. split.
  - intros Hsize dx dy Hdx Hdy.
    rewrite (packed_pixel decode self files w k f im dx dy) by assumption.
    unfold fit. now rewrite bool_decide_eq_true_2.
  - intros dx dy Hdx Hdy.
    rewrite (packed_pixel decode self files w k f im dx dy) by assumption.
    unfold fit. case_bool_decide as Hsize.
    + exists dx, dy. rewrite Hsize. cbn [fst snd]. repeat split; lia.
    + unfold resize. destruct (im_size im) as [sw sh]. cbn [fst snd getpixel] in *.
      eexists. eexists. split; [|split; [|reflexivity]].
      * split; [apply Z.div_pos; nia | apply Z.div_lt_upper_bound; nia].
      * split; [apply Z.div_pos; nia | apply Z.div_lt_upper_bound; nia].
Qed.

End RunFacts.

(** ** Sorting file names *)

Lemma string_leb_trans : forall a b c : string,
  String.leb a b = true -> String.leb b c = true -> String.leb a c = true.
Proof.
  unfold String.leb.
  induction a as [|x a IH]; intros [|y b] [|z c]; simpl; try done.
  unfold Ascii.compare.
  destruct (N.compare_spec (N_of_ascii x) (N_of_ascii y)) as [Hxy|Hxy|Hxy];
    destruct (N.compare_spec (N_of_ascii y) (N_of_ascii z)) as [Hyz|Hyz|Hyz];
    destruct (N.compare_spec (N_of_ascii x) (N_of_ascii z)) as [Hxz|Hxz|Hxz];
    try done; try lia.
  apply IH.
Qed.

Lemma insert_sorted_perm s l : insert_sorted s l ≡ₚ s :: l.
Proof.
  induction l as [|t l IH]; [reflexivity|]. simpl.
  destruct (String.leb s t); [reflexivity|].
  rewrite IH. apply Permutation_swap.
Qed.

Lemma sort_perm l : sort l ≡ₚ l.
Proof.
  induction l as [|s l IH]; [reflexivity|].
  cbn [sort foldr]. fold (sort l). now rewrite insert_sorted_perm, IH.
Qed.

Lemma sort_length l : length (sort l) = length l.
Proof. apply Permutation_length, sort_perm. Qed.

Lemma insert_sorted_sorted s l :
  StronglySorted (fun a b => String.leb a b = true) l ->
  StronglySorted (fun a b => String.leb a b = true) (insert_sorted s l).
Proof.
  induction 1 as [|t l Hl IH Ht]; simpl; [repeat constructor|].
  destruct (String.leb s t) eqn:Hst.
  - constructor; [now constructor|]. constructor; [exact Hst|].
    eapply Forall_impl; [exact Ht|]. intros u Htu. now apply (string_leb_trans s t u).
  - constructor; [exact IH|].
    rewrite insert_sorted_perm. constructor; [|exact Ht].
    destruct (String.leb_total s t) as [Hle|Hle]; congruence.
Qed.

Lemma sort_sorted l : StronglySorted (fun a b => String.leb a b = true) (sort l).
Proof.
  induction l as [|s l IH]; [constructor|].
  cbn [sort foldr]. fold (sort l). now apply insert_sorted_sorted.
Qed.

(** The sorted list depends on the files, not on the order they were
    listed in. *)
Lemma sort_unique l1 l2 : l1 ≡ₚ l2 -> sort l1 = sort l2.
Proof.
  intros Hperm.
  apply (StronglySorted_unique_strong (fun a b => String.leb a b = true)).
  - intros a b _ _. apply String.leb_antisym.
  - apply sort_sorted.
  - apply sort_sorted.
  - now rewrite !sort_perm.
Qed.

(** ** [main] *)

Section MainFacts.

Variable decode : string -> option image.

(** The files [main] collects, in the order [glob] lists them. *)
Local Abbreviation found glob :=
  (glob ("resources/textures/raw_blocks/*.png" : string)
   ++ glob ("resources/textures/raw_blocks/*.jpg" : string)
   ++ glob ("resources/textures/raw_blocks/*.jpeg" : string)).

Lemma main_collects (glob : string -> list string) :
  concat (map (fun ext : string => glob (path_join "resources/textures/raw_blocks" ext))
              ["*.png"; "*.jpg"; "*.jpeg"]) = found glob.
Proof.
  cbn [map concat]. rewrite app_nil_r.
  replace (path_join "resources/textures/raw_blocks" "*.png")
    with ("resources/textures/raw_blocks/*.png" : string) by reflexivity.
  replace (path_join "resources/textures/raw_blocks" "*.jpg")
    with ("resources/textures/raw_blocks/*.jpg" : string) by reflexivity.
  replace (path_join "resources/textures/raw_blocks" "*.jpeg")
    with ("resources/textures/raw_blocks/*.jpeg" : string) by reflexivity.
  reflexivity.
Qed.

(** X13. When [glob] finds at least one file, [main] does not raise and
    returns status 0; it writes exactly the output directory, the atlas
    and the metadata it got from [create_atlas], at its fixed paths. The
    metadata is for 16 pixel tiles, has at most 4096 entries, and the
    atlas edge is at most 1024 pixels. *)
Theorem X13_main_with_inputs (glob : string -> list string) w :
  found glob <> [] ->
  exists md atlas w',
    main decode glob w = (Ok 0, w') /\
    written w' =
      written w
      ++ [("resources/textures/blocks" : string, Directory);
          ("resources/textures/blocks/block_atlas.png" : string, PngFile atlas);
          ("resources/textures/blocks/block_atlas.json" : string, JsonFile md)] /\
    md_texture_size md = 16 /\
    md_atlas_size md <= 1024 /\
    im_size atlas = (md_atlas_size md, md_atlas_size md) /\
    Z.of_nat (size (md_textures md)) <= 4096.
Proof.
  intros Hfound. unfold main. cbv zeta. rewrite main_collects.
  destruct (found glob) as [|f fs] eqn:Hall; [contradiction|].
  set (files := sort (f :: fs)).
  set (w2 := {| stdout := (stdout w ++ [InfoFound (Z.of_nat (length files))])
                          ++ [InfoRule];
                written := written w |}).
  assert (Hn : 1 <= processed_count main_builder files).
  { unfold processed_count, files. rewrite sort_length. cbn [length max_textures main_builder].
    destruct (Z.ltb_spec 4096 (Z.of_nat (S (length fs)))); lia. }
  assert (HT : 0 < texture_size main_builder) by (cbn; lia).
  assert (Hrun : create_atlas decode main_builder files
                   "resources/textures/blocks/block_atlas.png"
                   (Some ("resources/textures/blocks/block_atlas.json" : string)) w2
                 = (Ok (final_metadata decode main_builder files w2),
                    final_world decode main_builder files
                      "resources/textures/blocks/block_atlas.png"
                      (Some ("resources/textures/blocks/block_atlas.json" : string)) w2)).
  { apply create_atlas_run; [vm_compute; discriminate | lia | exact Hn]. }
  exists (final_metadata decode main_builder files w2),
         (atlas (packed decode main_builder files w2)).
  eexists. split.
  { unfold bind at 1. unfold print at 1. unfold modify at 1. cbn [fst snd].
    unfold bind at 1. unfold print at 1. unfold modify at 1. cbn [fst snd].
    unfold bind at 1. unfold lift at 1.
    change (__init__ 16 1024) with (Ok main_builder). cbn [fst snd].
    unfold bind at 1. cbn [stdout written]. fold w2. rewrite Hrun.
    unfold bind, print, modify, ret. cbn [fst snd]. reflexivity. }
  split; [reflexivity|].
  split; [reflexivity|].
  destruct (side_of_bounds main_builder files Hn) as (Hs & _ & _).
  pose proof (atlas_size_of_pos main_builder files HT Hn) as Ha.
  pose proof (processed_count_le_capacity main_builder files) as Hcap.
  cbn [max_textures main_builder] in Hcap.
  split; [|split].
  - cbn [final_metadata md_atlas_size]. unfold atlas_size_of.
    assert (side_of main_builder files <= 64)
      by (unfold side_of; apply ceil_sqrt_least; lia).
    cbn [texture_size main_builder]. lia.
  - now apply packed_atlas_size.
  - cbn [final_metadata md_textures].
    pose proof (processed_count_length main_builder files ltac:(lia)) as Hlen.
    assert (Hle : (size (textures (packed decode main_builder files w2))
                   <= length (processed main_builder files))%nat).
    { unfold packed.
      etrans; [apply (loop_size_le decode main_builder (side_of main_builder files)
                        (atlas_size_of main_builder files) ltac:(lia) ltac:(lia))|].
      cbn [textures]. now rewrite map_size_empty. }
    lia.
Qed.

(** X14. [main] sorts what [glob] lists, so its result, console output
    and files included, does not depend on the order in which [glob]
    lists the files. *)
Theorem X14_main_ignores_listing_order (glob glob' : string -> list string) w :
  (forall pattern, glob pattern ≡ₚ glob' pattern) ->
  main decode glob w = main decode glob' w.
Proof.
  intros Hperm. unfold main. cbv zeta. rewrite !main_collects.
  assert (Hall : found glob ≡ₚ found glob') by now rewrite !Hperm.
  destruct (found glob) as [|f fs] eqn:Hf; destruct (found glob') as [|g gs] eqn:Hg.
  - reflexivity.
  - now apply Permutation_nil_cons in Hall.
  - symmetry in Hall. now apply Permutation_nil_cons in Hall.
  - now rewrite (sort_unique _ _ Hall).
Qed.

End MainFacts.

(** ** Texture names *)

Lemma rfind_from_app c a b : forall i last,
  rfind_from c (String.append a b) i last
  = rfind_from c b (i + Z.of_nat (String.length a)) (rfind_from c a i last).
Proof.
  induction a as [|x a IH]; intros i last; simpl.
  - now rewrite Z.add_0_r.
  - rewrite IH. f_equal. lia.
Qed.

Lemma rfind_from_absent c p : forall i last,
  has_char c p = false -> rfind_from c p i last = last.
Proof.
  induction p as [|x p IH]; intros i last Hp; [reflexivity|].
  simpl in *. apply orb_false_iff in Hp as [Hx Hp]. rewrite Hx. now apply IH.
Qed.

(** The last occurrence of a character that does not occur later on. *)
Lemma rfind_last c a b :
  has_char c b = false ->
  rfind c (String.append a (String c b)) = Z.of_nat (String.length a).
Proof.
  intros Hb. unfold rfind. rewrite rfind_from_app. simpl.
  rewrite Ascii.eqb_refl. now rewrite rfind_from_absent.
Qed.

Lemma rfind_absent c p : has_char c p = false -> rfind c p = -1.
Proof. apply rfind_from_absent. Qed.

Lemma has_char_app c a b :
  has_char c (String.append a b) = has_char c a || has_char c b.
Proof.
  induction a as [|x a IH]; [reflexivity|]. simpl. now rewrite IH, orb_assoc.
Qed.

Lemma substring_all p : String.substring 0 (String.length p) p = p.
Proof. induction p as [|x p IH]; [reflexivity|]. simpl. now rewrite IH. Qed.

Lemma substring_prefix a b :
  String.substring 0 (String.length a) (String.append a b) = a.
Proof.
  induction a as [|x a IH]; simpl; [now destruct b|]. now rewrite IH.
Qed.

Lemma substring_suffix a b :
  String.substring (String.length a) (String.length b) (String.append a b) = b.
Proof. induction a as [|x a IH]; simpl; [apply substring_all | exact IH]. Qed.

Lemma string_length_app a b :
  String.length (String.append a b) = (String.length a + String.length b)%nat.
Proof. induction a as [|x a IH]; simpl; [reflexivity | now rewrite IH]. Qed.

Lemma str_take_app a b : str_take (Z.of_nat (String.length a)) (String.append a b) = a.
Proof. unfold str_take. rewrite Nat2Z.id. apply substring_prefix. Qed.

Lemma str_drop_app a b : str_drop (Z.of_nat (String.length a)) (String.append a b) = b.
Proof.
  unfold str_drop. rewrite Nat2Z.id, string_length_app.
  replace (String.length a + String.length b - String.length a)%nat
    with (String.length b) by lia.
  apply substring_suffix.
Qed.

Lemma str_drop_0 p : str_drop 0 p = p.
Proof. unfold str_drop. simpl. rewrite Nat.sub_0_r. apply substring_all. Qed.

(** The last path component. *)
Lemma basename_of_path dir name :
  has_char "/" name = false ->
  basename (String.append dir (String "/" name)) = name.
Proof.
  intros Hname. unfold basename. rewrite rfind_last by assumption.
  replace (Z.of_nat (String.length dir) + 1)
    with (Z.of_nat (String.length (String.append dir "/"))).
  - replace (String.append dir (String "/" name))
      with (String.append (String.append dir "/") name).
    + apply str_drop_app.
    + clear. induction dir as [|x dir IH]; [reflexivity|].
      change (String x (String.append (String.append dir "/") name)
              = String x (String.append dir (String "/" name))).
      f_equal. exact IH.
  - rewrite string_length_app. simpl. lia.
Qed.

Lemma basename_of_name name : has_char "/" name = false -> basename name = name.
Proof.
  intros Hname. unfold basename. rewrite rfind_absent by assumption. apply str_drop_0.
Qed.

Lemma all_dots_without_dot stem :
  stem <> EmptyString -> has_char "." stem = false -> all_dots stem = false.
Proof.
  destruct stem as [|x stem]; [congruence|]. simpl. intros _ Hdot.
  apply orb_false_iff in Hdot as [-> _]. reflexivity.
Qed.

(** A name [stem.ext] splits at its dot. *)
Lemma splitext_of_name stem ext :
  stem <> EmptyString ->
  has_char "/" stem = false -> has_char "." stem = false ->
  has_char "/" ext = false -> has_char "." ext = false ->
  splitext (String.append stem (String "." ext)) = (stem, String "." ext).
Proof.
  intros Hne Hs1 Hs2 He1 He2. unfold splitext.
  rewrite (rfind_last "." stem ext He2).
  rewrite (rfind_absent "/").
  2:{ rewrite has_char_app. simpl. now rewrite Hs1, He1. }
  replace (-1 + 1) with 0 by lia.
  rewrite str_take_app, str_drop_0, (all_dots_without_dot stem Hne Hs2).
  replace (-1 <? Z.of_nat (String.length stem)) with true by (symmetry; apply Z.ltb_lt; lia).
  cbn [andb negb]. now rewrite str_drop_app.
Qed.

Lemma splitext_without_dot name :
  has_char "." name = false -> splitext name = (name, EmptyString).
Proof.
  intros Hdot. unfold splitext. rewrite (rfind_absent "." name Hdot).
  destruct (rfind "/" name <? -1) eqn:Hlt; [|reflexivity].
  exfalso. apply Z.ltb_lt in Hlt. unfold rfind in Hlt.
  assert (Hge : forall p i last, -1 <= last -> 0 <= i -> -1 <= rfind_from "/" p i last).
  { clear. induction p as [|x p IH]; intros i last Hl Hi; simpl; [exact Hl|].
    apply IH; [destruct (Ascii.eqb x "/"); lia | lia]. }
  specialize (Hge name 0 (-1) ltac:(lia) ltac:(lia)). lia.
Qed.

(** X15. The name a texture is recorded under is its file name without
    the directory and without the last extension: [dir/stem.ext],
    [stem.ext] and [dir/stem] all give [stem]. So files that differ only
    in directory or extension get the same name. *)
Theorem X15_texture_name dir stem ext :
  stem <> EmptyString ->
  has_char "/" stem = false -> has_char "." stem = false ->
  has_char "/" ext = false -> has_char "." ext = false ->
  tex_name_of (String.append dir (String "/" (String.append stem (String "." ext))))
    = stem /\
  tex_name_of (String.append stem (String "." ext)) = stem /\
  tex_name_of (String.append dir (String "/" stem)) = stem.
Proof.
  intros Hne Hs1 Hs2 He1 He2. unfold tex_name_of.
  assert (Hname : has_char "/" (String.append stem (String "." ext)) = false).
  { rewrite has_char_app. simpl. now rewrite Hs1, He1. }
  repeat split.
  - rewrite basename_of_path by exact Hname. now rewrite splitext_of_name.
  - rewrite basename_of_name by exact Hname. now rewrite splitext_of_name.
  - rewrite basename_of_path by exact Hs1. now rewrite splitext_without_dot.
Qed.

(** ** UV rectangles once more *)

Section UvFacts.

Variable decode : string -> option image.

(** X16. Taken as exact quotients, the UV rectangle of an entry gives
    its pixel rectangle back: [u_min * A = x], [u_max * A = x + T],
    [(1 - v_max) * A = y] and [(1 - v_min) * A = y + T] for the atlas
    edge [A]; so every rectangle is [T / A] wide and high. *)
Theorem X16_uv_round_trip self files output_path metadata_path w :
  dirname output_path <> "" ->
  0 < texture_size self ->
  1 <= processed_count self files ->
  exists md w',
    create_atlas decode self files output_path metadata_path w = (Ok md, w') /\
    forall name e, md_textures md !! name = Some e ->
      let A := inject_Z (md_atlas_size md) in
      let T := inject_Z (md_texture_size md) in
      let x := inject_Z (fst (position e)) in
      let y := inject_Z (snd (position e)) in
      (fst (uv_min e) * A == x /\ fst (uv_max e) * A == x + T /\
       (1 - snd (uv_max e)) * A == y /\ (1 - snd (uv_min e)) * A == y + T /\
       fst (uv_max e) - fst (uv_min e) == T / A /\
       snd (uv_max e) - snd (uv_min e) == T / A)%Q.
Proof.
  intros Hout HT Hn.
  exists (final_metadata decode self files w),
         (final_world decode self files output_path metadata_path w).
  split; [apply create_atlas_run; [exact Hout | lia | lia]|].
  cbn [final_metadata md_textures md_atlas_size md_texture_size].
  intros name e He.
  destruct (packed_entry decode self files w name e HT Hn He)
    as (k & f & im & _ & _ & _ & -> & _).
  pose proof (atlas_size_of_pos self files HT Hn) as HA.
  assert (HA' : ~ (inject_Z (atlas_size_of self files) == 0)%Q).
  { change 0%Q with (inject_Z 0). rewrite inject_Z_injective. lia. }
  unfold entry_of. destruct (cell_origin self (side_of self files) (Z.of_nat k)) as [x y].
  cbn [position uv_min uv_max fst snd].
  unfold Z.sub. rewrite !inject_Z_plus, !inject_Z_opp.
  repeat split; field; exact HA'.
Qed.

End UvFacts.

(** X17. On binary64 floats, as [create_atlas] computes them for the
    16 pixel tiles of [main] in a grid of up to 64 cells per side, each
    of the four UV quotients of a cell lies between 0 and 1. *)
Theorem X17_uv_floats side row col :
  1 <= side <= 64 -> 0 <= row < side -> 0 <= col < side ->
  let T := 16 in
  let A := side * T in
  let x := col * T in
  let y := row * T in
  PyFloat.in_unit (PyFloat.truediv x A) = true /\
  PyFloat.in_unit (PyFloat.truediv (A - y - T) A) = true /\
  PyFloat.in_unit (PyFloat.truediv (x + T) A) = true /\
  PyFloat.in_unit (PyFloat.truediv (A - y) A) = true.
Proof.
  intros Hside Hrow Hcol. cbv zeta.
  replace (side * 16 - row * 16 - 16) with ((side - row - 1) * 16) by lia.
  replace (col * 16 + 16) with ((col + 1) * 16) by lia.
  replace (side * 16 - row * 16) with ((side - row) * 16) by lia.
  repeat split; apply uv_float_in_unit; lia.
Qed.

(** ** The further properties at concrete inputs *)


Lemma X2_witness :
  exists md w',
    create_atlas demo_decode small_builder six_files out_png None w0 = (Ok md, w') /\
    md_textures_per_row md <= 2 /\ md_atlas_size md <= 32.
Proof.
  destruct (X2_atlas_within_target demo_decode 16 32 small_builder six_files
              out_png None w0)
    as (md & w' & Hrun & _ & Hside & Hsize).
  - vm_compute. discriminate.
  - reflexivity.
  - lia.
  - lia.
  - vm_compute. discriminate.
  - exists md, w'. split; [exact Hrun|]. split; assumption.
Defined.

Lemma X3_witness :
  exists md w' u,
    create_atlas demo_decode main_builder five_files out_png None w0 = (Ok md, w') /\
    InfoUtilization u ∈ stdout w' /\ (25 < u)%Q /\ (u <= 100)%Q.
Proof.
  destruct (X3_utilization demo_decode main_builder five_files out_png None w0)
    as (md & w' & u & Hrun & Hin & _ & Hlo & Hhi & _).
  - vm_compute. discriminate.
  - vm_compute. reflexivity.
  - vm_compute. discriminate.
  - exists md, w', u. repeat split; assumption.
Defined.

Lemma X4_witness :
  exists md w',
    create_atlas demo_decode main_builder five_files out_png None w0 = (Ok md, w') /\
    forall name e, md_textures md !! name = Some e ->
      index e = snd (position e) / 16 * md_textures_per_row md + fst (position e) / 16.
Proof.
  destruct (X4_addressing_inverts demo_decode main_builder five_files out_png None w0)
    as (md & w' & Hrun & Hinv & _).
  - vm_compute. discriminate.
  - vm_compute. reflexivity.
  - vm_compute. discriminate.
  - exists md, w'. split; [exact Hrun | exact Hinv].
Defined.

Lemma X5_witness :
  exists md atlas w',
    create_atlas demo_decode main_builder five_files out_png None w0 = (Ok md, w') /\
    saves w0 w' out_png atlas /\
    getpixel atlas 32 16 = transparent.
Proof.
  destruct (X5_unused_is_transparent demo_decode main_builder five_files out_png None w0)
    as (md & atlas & w' & Hrun & Hsave & _ & Hbeyond).
  - vm_compute. discriminate.
  - vm_compute. reflexivity.
  - vm_compute. discriminate.
  - assert (Hmd : md = final_metadata demo_decode main_builder five_files w0).
    { rewrite create_atlas_run in Hrun;
        [congruence | vm_compute; discriminate | vm_compute; discriminate
        | vm_compute; discriminate]. }
    exists md, atlas, w'. split; [exact Hrun|]. split; [exact Hsave|].
    rewrite Hmd in Hbeyond.
    apply (Hbeyond 5 0 0); vm_compute; try split; congruence.
Defined.

Lemma X6_witness :
  exists md atlas w',
    create_atlas demo_decode main_builder ["raw/broken.png"] out_png None w0
      = (Ok md, w') /\
    saves w0 w' out_png atlas /\
    md_textures md = ∅ /\ forall px py, getpixel atlas px py = transparent.
Proof.
  destruct (X6_nothing_decodes demo_decode main_builder ["raw/broken.png"]
              out_png None w0)
    as (md & atlas & w' & Hrun & Hsave & Hempty & _ & Hclear).
  - vm_compute. discriminate.
  - vm_compute. reflexivity.
  - vm_compute. discriminate.
  - intros f Hf. vm_compute in Hf.
    apply elem_of_cons in Hf as [->|Hf]; [reflexivity | inversion Hf].
  - exists md, atlas, w'. repeat split; assumption.
Defined.

Lemma X7_witness :
  exists md w',
    create_atlas demo_decode main_builder five_files out_png None w0 = (Ok md, w') /\
    Z.of_nat (size (md_textures md)) = 5.
Proof.
  destruct (X7_entry_count demo_decode main_builder five_files out_png None w0)
    as (md & w' & Hrun & _ & _ & Hexact).
  - vm_compute. discriminate.
  - vm_compute. reflexivity.
  - vm_compute. discriminate.
  - exists md, w'. split; [exact Hrun|]. apply Hexact.
    + intros f Hf. vm_compute in Hf.
      repeat (apply elem_of_cons in Hf as [->|Hf]; [vm_compute; discriminate|]).
      inversion Hf.
    + apply (bool_decide_unpack
               (NoDup (tex_name_of <$> processed main_builder five_files))).
      vm_compute. exact I.
Defined.

Lemma X8_witness :
  exists md atlas w',
    create_atlas demo_decode main_builder five_files out_png (Some out_json) w0
      = (Ok md, w') /\
    written w' = [("out" : string, Directory); (out_png, PngFile atlas);
                  (out_json, JsonFile md)].
Proof.
  destruct (X8_files_written demo_decode main_builder five_files out_png
              (Some out_json) w0)
    as (md & atlas & w' & Hrun & _ & Hwritten).
  - vm_compute. discriminate.
  - vm_compute. reflexivity.
  - vm_compute. discriminate.
  - exists md, atlas, w'. split; [exact Hrun | exact Hwritten].
Defined.

Lemma X9_witness :
  (exists w', create_atlas demo_decode main_builder [] out_png None w0
              = (Raise ZeroDivisionError, w') /\ written w' = []) /\
  (exists w', create_atlas demo_decode main_builder five_files "atlas.png" None w0
              = (Raise FileNotFoundError, w') /\ written w' = []).
Proof.
  split.
  - destruct (X9_failures demo_decode main_builder [] out_png None w0)
      as (_ & Hzero & _ & _); [vm_compute; discriminate|].
    apply Hzero. reflexivity.
  - destruct (X9_failures demo_decode main_builder five_files "atlas.png" None w0)
      as (_ & _ & _ & Hnodir); [vm_compute; discriminate|].
    apply Hnodir; [vm_compute; discriminate | vm_compute; reflexivity | reflexivity].
Defined.

Lemma X10_witness :
  exists md w',
    create_atlas demo_decode main_builder three_files out_png None w0 = (Ok md, w') /\
    ErrLoad "raw/broken.png" OSError ∈ stdout w'.
Proof.
  destruct (X10_failures_are_reported demo_decode main_builder three_files out_png None w0
              1%nat "raw/broken.png")
    as (md & w' & Hrun & Hin).
  - vm_compute. discriminate.
  - vm_compute. reflexivity.
  - vm_compute. discriminate.
  - reflexivity.
  - reflexivity.
  - exists md, w'. split; assumption.
Defined.

Lemma X11_witness :
  exists md atlas w',
    create_atlas demo_decode main_builder five_files out_png None w0 = (Ok md, w') /\
    saves w0 w' out_png atlas /\
    getpixel atlas 0 16 = (255, 0, 0, 255).
Proof.
  destruct (X11_tile_pixels demo_decode main_builder five_files out_png None w0
              3%nat "raw/d.png" (blank 16 16 (255, 0, 0, 255)))
    as (md & atlas & w' & Hrun & Hsave & Hcopy & _).
  - vm_compute. discriminate.
  - vm_compute. reflexivity.
  - vm_compute. discriminate.
  - reflexivity.
  - reflexivity.
  - vm_compute. reflexivity.
  - vm_compute. reflexivity.
  - assert (Hmd : md = final_metadata demo_decode main_builder five_files w0).
    { rewrite create_atlas_run in Hrun;
        [congruence | vm_compute; discriminate | vm_compute; discriminate
        | vm_compute; discriminate]. }
    exists md, atlas, w'. split; [exact Hrun|]. split; [exact Hsave|].
    rewrite Hmd in Hcopy.
    apply (Hcopy eq_refl 0 0); vm_compute; split; congruence.
Defined.

Lemma X13_witness :
  exists md atlas w',
    main demo_decode (png_only five_files) w0 = (Ok 0, w') /\
    written w' =
      [("resources/textures/blocks" : string, Directory);
       ("resources/textures/blocks/block_atlas.png" : string, PngFile atlas);
       ("resources/textures/blocks/block_atlas.json" : string, JsonFile md)] /\
    md_atlas_size md <= 1024.
Proof.
  destruct (X13_main_with_inputs demo_decode (png_only five_files) w0)
    as (md & atlas & w' & Hrun & Hwritten & _ & Hsize & _).
  - vm_compute. discriminate.
  - exists md, atlas, w'. repeat split; assumption.
Defined.

Lemma X14_witness :
  main demo_decode (png_only ["raw/b.png"; "raw/a.png"]) w0
  = main demo_decode (png_only ["raw/a.png"; "raw/b.png"]) w0.
Proof.
  apply X14_main_ignores_listing_order. intros pattern. unfold png_only.
  destruct (String.eqb pattern "resources/textures/raw_blocks/*.png");
    [apply Permutation_swap | reflexivity].
Defined.

Lemma X15_witness :
  tex_name_of "raw/stone.png" = "stone" /\
  tex_name_of "stone.png" = "stone" /\
  tex_name_of "raw/stone" = "stone".
Proof.
  apply (X15_texture_name "raw" "stone" "png");
    [discriminate | reflexivity | reflexivity | reflexivity | reflexivity].
Defined.

Lemma X16_witness :
  exists md w',
    create_atlas demo_decode main_builder five_files out_png None w0 = (Ok md, w') /\
    forall name e, md_textures md !! name = Some e ->
      (fst (uv_min e) * inject_Z (md_atlas_size md) == inject_Z (fst (position e)))%Q.
Proof.
  destruct (X16_uv_round_trip demo_decode main_builder five_files out_png None w0)
    as (md & w' & Hrun & Huv).
  - vm_compute. discriminate.
  - vm_compute. reflexivity.
  - vm_compute. discriminate.
  - exists md, w'. split; [exact Hrun|]. intros name e He.
    now destruct (Huv name e He) as [Hx _].
Defined.

Lemma X17_witness :
  PyFloat.in_unit (PyFloat.truediv 0 48) = true /\
  PyFloat.in_unit (PyFloat.truediv (48 - 16 - 16) 48) = true /\
  PyFloat.in_unit (PyFloat.truediv (0 + 16) 48) = true /\
  PyFloat.in_unit (PyFloat.truediv (48 - 16) 48) = true.
Proof. apply (X17_uv_floats 3 1 0); lia. Defined.

Lemma ceil_of_sqrt_agrees_witness :
  PyFloat.ceil_of_sqrt 5 = Some 3 /\ PyFloat.ceil_of_sqrt 4096 = Some 64.
Proof.
  split.
  - apply (ceil_of_sqrt_agrees 5). lia.
  - apply (ceil_of_sqrt_agrees 4096). lia.
Defined.
